(** * The key model of matter.js ([packages/matter.js/src/crypto/Key.ts])

    A shallow embedding of the JWK-shaped key object built by the [Key]
    factory: the base JWK fields, the property overlays installed on top of
    them (human aliases, base-64 codecs, importers, asserted aliases), curve
    inference and the derivation of the public point.

    JavaScript objects are finite maps from property names to values, thrown
    exceptions are the left summand of [result], and the two collaborators
    that live outside [Key.ts] and cannot be read from it (the DER decoder and
    the [elliptic] curve arithmetic) are section variables of the model. *)

From Stdlib Require Import ZArith NArith Lia Strings.Byte Ascii String List.
From stdpp Require Import base option list strings gmap pretty.

Local Open Scope string_scope.
Local Open Scope list_scope.

(** ** Byte arrays *)

(** [ByteArray] is [Uint8Array]: every element is one of the 256 bytes. *)
Abbreviation ByteArray := (list byte).

(** [TypedArray.prototype.slice(begin, end)] for [0 <= begin <= end]; an
    [end] beyond the array is clamped, as in JavaScript. *)
Definition slice (input : ByteArray) (begin end_ : nat) : ByteArray :=
  take (end_ - begin) (drop begin input).

(** [slice(begin)]: up to the end of the array. *)
Definition slice_from (input : ByteArray) (begin : nat) : ByteArray :=
  drop begin input.

Definition byte_of_N (n : N) : byte :=
  default x00 (Byte.of_N (n mod 256)).

Definition hexDigit (n : N) : ascii :=
  nth (N.to_nat n) (list_ascii_of_string "0123456789abcdef") "0"%char.

(** Modelled from the spec: [ByteArray.prototype.toHex] is declared in
    [util/ByteArray.ts], which is not among the sources; the spec writes the
    object identifiers it yields as two lower-case hexadecimal digits per
    byte ([2a8648ce3d030107], [0103840022]). *)
Definition toHex (bytes : ByteArray) : string :=
  string_of_list_ascii
    (flat_map (fun b => [hexDigit (Byte.to_N b / 16); hexDigit (Byte.to_N b mod 16)]) bytes).

(** ** Exceptions *)

(** The exceptions a key operation can end in.  [KeyError] is the class
    declared on line 13 of [Key.ts] and [MatterError] its base class; both
    carry the message they are constructed with.  [TypeError] stands for the
    errors the JavaScript runtime raises itself (reading a property of
    [undefined], spreading a value that is not iterable, handing a codec a
    value of the wrong type).  [ExternalError] is whatever the DER decoder or
    the curve library throws. *)
Inductive Error : Type :=
| KeyError (message : string)
| MatterError (message : string)
| TypeError (message : string)
| ExternalError (message : string).

Definition result (A : Type) : Type := Error + A.

Definition ok {A} (a : A) : result A := inr a.
Definition throw {A} (e : Error) : result A := inl e.

#[global] Instance result_ret : MRet result := fun A a => inr a.

#[global] Instance result_bind : MBind result := fun A B k m =>
  match m with
  | inl e => inl e
  | inr a => k a
  end.

(** Run [f] over [names] from left to right, threading the object and
    stopping at the first exception: the [forEach] loops of the factory. *)
Fixpoint forEach {A S} (f : A -> S -> result S) (names : list A) (s : S) : result S :=
  match names with
  | [] => ok s
  | name :: rest => s' ← f name s; forEach f rest s'
  end.

(** ** Base-64 *)

(** [codec/Base64Codec.ts] is not among the sources; the codec is modelled
    from the spec (4.C): URL-safe alphabet, no padding on encode, tolerant
    padding on decode. *)
Module Base64.

Definition alphabet (urlSafe : bool) : list ascii :=
  list_ascii_of_string
    ("ABCDEFGHIJKLMNOPQRSTUVWXYZabcdefghijklmnopqrstuvwxyz0123456789"
       ++ (if urlSafe then "-_" else "+/")).

Definition char_of_sextet (urlSafe : bool) (n : N) : ascii :=
  nth (N.to_nat n) (alphabet urlSafe) "A"%char.

Definition sextet_of_char (c : ascii) : option N :=
  let n := N_of_ascii c in
  if (65 <=? n)%N && (n <=? 90)%N then Some (n - 65)%N
  else if (97 <=? n)%N && (n <=? 122)%N then Some (n - 71)%N
  else if (48 <=? n)%N && (n <=? 57)%N then Some (n + 4)%N
  else if (n =? 45)%N || (n =? 43)%N then Some 62%N
  else if (n =? 95)%N || (n =? 47)%N then Some 63%N
  else None.

(** Three bytes make four six-bit groups; a tail of one or two bytes makes
    two or three, the last one filled with zero bits. *)
Fixpoint sextets (source : ByteArray) : list N :=
  match source with
  | [] => []
  | [a] =>
      let a := Byte.to_N a in
      [a / 4; (a mod 4) * 16]%N
  | [a; b] =>
      let a := Byte.to_N a in
      let b := Byte.to_N b in
      [a / 4; (a mod 4) * 16 + b / 16; (b mod 16) * 4]%N
  | a :: b :: c :: rest =>
      let a := Byte.to_N a in
      let b := Byte.to_N b in
      let c := Byte.to_N c in
      [a / 4; (a mod 4) * 16 + b / 16; (b mod 16) * 4 + c / 64; c mod 64]%N
        ++ sextets rest
  end.

Fixpoint bytes_of_sextets (groups : list N) : ByteArray :=
  match groups with
  | s1 :: s2 :: s3 :: s4 :: rest =>
      [byte_of_N (s1 * 4 + s2 / 16);
       byte_of_N ((s2 mod 16) * 16 + s3 / 4);
       byte_of_N ((s3 mod 4) * 64 + s4)]%N
        ++ bytes_of_sextets rest
  | [s1; s2; s3] =>
      [byte_of_N (s1 * 4 + s2 / 16); byte_of_N ((s2 mod 16) * 16 + s3 / 4)]%N
  | [s1; s2] => [byte_of_N (s1 * 4 + s2 / 16)]%N
  | _ => []
  end.

Definition padding (urlSafe : bool) (len : nat) : list ascii :=
  if urlSafe then []
  else match len mod 3 with
       | 1 => ["="; "="]%char
       | 2 => ["="]%char
       | _ => []
       end.

(** Modelled from the spec: [Base64.encode] of [codec/Base64Codec.ts].
    [encode source true], the call [Key.ts] makes, is the unpadded text over
    the URL-safe alphabet; [encode source false] is the conventional padded
    form over the standard alphabet. *)
Definition encode (source : ByteArray) (urlSafe : bool) : string :=
  string_of_list_ascii
    (map (char_of_sextet urlSafe) (sextets source) ++ padding urlSafe (length source)).

(** Modelled from the spec: [Base64.decode] of [codec/Base64Codec.ts].  It
    reads either alphabet and skips every other character, the padding
    among them. *)
Definition decode (source : string) : ByteArray :=
  bytes_of_sextets (omap sextet_of_char (list_ascii_of_string source)).

(** The characters of unpadded base64url text. *)
Definition urlChar (c : ascii) : bool :=
  bool_decide (c ∈ alphabet true).

End Base64.

(** ** JavaScript values and objects *)

(** The values a property of a key, or of the partial record handed to the
    factory, holds at run time: [undefined], a boolean ([ext], and the
    [false] a codec getter yields), a string (every JWK text field and the
    string-valued enumerations), a [ByteArray], a [BinaryKeyPair], the string
    array of [key_ops], the records of [oth].  The two properties of a key
    pair are values themselves: the pair [keyPairBits] returns is built from
    what the getters of [publicBits] and [privateBits] yield. *)
Inductive Value : Type :=
| VUndefined
| VBool (b : bool)
| VString (s : string)
| VBytes (bytes : ByteArray)
| VKeyPair (publicKey privateKey : Value)
| VStrings (items : list string)
| VOtherPrimes (items : list (option string * option string * option string)).

(** An object is the finite map of its own data properties. *)
Abbreviation Obj := (gmap string Value).

(** [that[name]] on a data property: absent properties read as [undefined]. *)
Definition getData (that : Obj) (name : string) : Value :=
  default VUndefined (that !! name).

(** [ToBoolean], the test applied by [if (v)], [!v] and [a && b]. *)
Definition truthy (v : Value) : bool :=
  match v with
  | VUndefined => false
  | VBool b => b
  | VString "" => false
  | _ => true
  end.

(** [v === s] for a string constant [s]. *)
Definition isString (v : Value) (s : string) : bool :=
  match v with
  | VString s' => String.eqb s' s
  | _ => false
  end.

Definition isUndefined (v : Value) : bool :=
  match v with
  | VUndefined => true
  | _ => false
  end.

Definition joinWith (sep : string) (items : list string) : string :=
  match items with
  | [] => ""
  | first :: rest => fold_left (fun acc item => acc +:+ sep +:+ item) rest first
  end.

(** [ToString], as applied by a template literal. *)
Definition toString (v : Value) : string :=
  match v with
  | VUndefined => "undefined"
  | VBool true => "true"
  | VBool false => "false"
  | VString s => s
  | VBytes bytes => joinWith "," (map (fun b => pretty (Byte.to_N b)) bytes)
  | VStrings items => joinWith "," items
  | VKeyPair _ _ => "[object Object]"
  | VOtherPrimes items => joinWith "," (map (fun _ => "[object Object]") items)
  end.

(** [String.prototype.toLowerCase] on ASCII text. *)
Definition toLowerCase (s : string) : string :=
  string_of_list_ascii
    (map (fun c => let n := N_of_ascii c in
                   if (65 <=? n)%N && (n <=? 90)%N then ascii_of_N (n + 32) else c)
       (list_ascii_of_string s)).

(** [s.replace(/-/g, '')]. *)
Definition removeDashes (s : string) : string :=
  string_of_list_ascii
    (filter (fun c => c <> "-"%char) (list_ascii_of_string s)).

(** Look a name up in one of the string enumerations ([Object.entries] of an
    enum is the list of its (name, value) pairs in declaration order). *)
Fixpoint assoc (name : string) (entries : list (string * string)) : option string :=
  match entries with
  | [] => None
  | (key, target) :: rest => if String.eqb key name then Some target else assoc name rest
  end.

(** ** Constants of [Key.ts] *)

(** Line 15. *)
Definition JWK_KEYS : list string :=
  ["crv"; "d"; "dp"; "dq"; "e"; "ext"; "k"; "key_ops"; "kty"; "n"; "oth"; "p"; "q";
   "qi"; "use"; "x"; "y"].

Module KeyType.
Definition EC := "EC".
Definition RSA := "RSA".
Definition oct := "oct".
End KeyType.

Module CurveType.
Definition p256 := "P-256".
Definition p384 := "P-384".
Definition p521 := "P-521".
End CurveType.

Module Asn1ObjectID.
Definition ecPublicKey := "2a8648ce3d0201".
Definition prime256r1 := "2a8648ce3d030107".
Definition prime384r1 := "0103840022".
Definition prime521r1 := "0103840023".
End Asn1ObjectID.

(** Lines 36-40.  The keys are strings of hexadecimal digits, so a lookup
    never reaches a property inherited from [Object.prototype]. *)
Definition CurveLookup : gmap string string :=
  {[ Asn1ObjectID.prime256r1 := CurveType.p256;
     Asn1ObjectID.prime384r1 := CurveType.p384;
     Asn1ObjectID.prime521r1 := CurveType.p521 ]}.

(** Lines 399-418: the three alias enumerations, as [Object.entries] lists
    them. *)
Definition Aliases : list (string * string) :=
  [("algorithm", "alg"); ("curve", "crv"); ("type", "kty"); ("operations", "key_ops");
   ("private", "d"); ("extractable", "ext")].

Definition Base64Codecs : list (string * string) :=
  [("privateBits", "d"); ("xBits", "x"); ("yBits", "y")].

Definition AssertedAliases : list (string * string) :=
  [("publicKey", "publicBits"); ("privateKey", "privateBits"); ("keyPair", "keyPairBits")].

(** ** DER nodes *)

(** Modelled from the spec: [DerType] and [DerNode] are declared in
    [codec/DerCodec.ts], which is not among the sources.  A node (spec 3.2)
    is [{ tag, bytes, elements }] with optional content and optional
    children; of the tag only its comparison with the four types [Key.ts]
    names is used. *)
Inductive DerType : Type :=
| UnsignedInt
| BitString
| OctetString
| ObjectIdentifier
| OtherType (tag : N).

#[global] Instance DerType_eq_dec : EqDecision DerType.
Proof. solve_decision. Defined.

(** Modelled from the spec: the [DerNode] of [codec/DerCodec.ts], with its
    fields [_tag], [_bytes] and [_elements] as [Key.ts] reads them. *)
#[warnings="-register-all"]
Inductive DerNode : Type :=
  mkDerNode { _tag : DerType; _bytes : option ByteArray; _elements : option (list DerNode) }.

(** [node?._elements?.[i]] *)
Definition element (node : option DerNode) (i : nat) : option DerNode :=
  n ← node; elements ← _elements n; elements !! i.

(** Lines 204-214. *)
Definition checkDerVersion (type : string) (node : option DerNode) (version : N)
  : result unit :=
  let derVersion : option N :=
    n ← node;
    guard (_tag n = UnsignedInt);;
    bytes ← _bytes n;
    guard (length bytes = 1%nat);;
    b ← bytes !! 0%nat;
    Some (Byte.to_N b) in
  if decide (derVersion = Some version) then ok tt
  else throw (KeyError (type +:+ " key version mismatch")).

(** Lines 216-225. *)
Definition getDerObjectID (type : string) (node : option DerNode) : result ByteArray :=
  let id : option ByteArray :=
    n ← node;
    guard (_tag n = ObjectIdentifier);;
    bytes ← _bytes n;
    guard (1 < length bytes)%nat;;
    Some bytes in
  match id with
  | Some id => ok id
  | None => throw (KeyError ("Missing object in " +:+ type +:+ " key"))
  end.

(** Lines 227-233. *)
Definition getDerCurve (type : string) (node : option DerNode) : result string :=
  oid ← getDerObjectID type node;
  match CurveLookup !! toHex oid with
  | Some curve => ok curve
  | None => throw (KeyError ("Unsupported " +:+ type +:+ " EC curve"))
  end.

(** Lines 235-244. *)
Definition getDerKey (type : string) (node : option DerNode) (derType : DerType)
  : result ByteArray :=
  let key : option ByteArray :=
    n ← node;
    guard (_tag n = derType);;
    bytes ← _bytes n;
    guard (1 < length bytes)%nat;;
    Some bytes in
  match key with
  | Some key => ok key
  | None => throw (MatterError ("Missing " +:+ type +:+ " key node"))
  end.

(** ** Big numbers of the curve library *)

(** The base-256 digits of [n], least significant first; [fuel] bounds
    their number. *)
Fixpoint bytesLE (fuel : nat) (n : N) : ByteArray :=
  match fuel with
  | O => []
  | S fuel => if (n =? 0)%N then [] else byte_of_N (n mod 256) :: bytesLE fuel (n / 256)
  end.

(** [bn.js] is an external dependency of [elliptic].  [BN.prototype.toArray()]
    called without a length, as on lines 528-529, gives the big-endian bytes
    of the number with no leading zero byte, and one zero byte for zero
    ([reqLength = length || Math.max(1, byteLength)]). *)
Definition BN_toArray (n : N) : ByteArray :=
  if (n =? 0)%N then [x00] else rev (bytesLE (N.to_nat (N.size n)) n).

(** [new BN(bytes)]: the number a big-endian byte array denotes. *)
Definition BN_ofBytes (bytes : ByteArray) : N :=
  fold_left (fun acc b => acc * 256 + Byte.to_N b)%N bytes 0%N.

(** [...v] inside an array literal that becomes a [ByteArray]: the value has
    to be iterable.  The codec getters, the only source of the values spread
    in [Key.ts], yield bytes or [false]. *)
Definition spread (v : Value) : result ByteArray :=
  match v with
  | VBytes bytes => ok bytes
  | _ => throw (TypeError (toString v +:+ " is not iterable"))
  end.

(** ** The key object *)

Section KeyModel.

(** [DerCodec.decode] ([codec/DerCodec.ts], not among the sources): a node
    tree, or the exception the decoder throws. *)
Variable DerCodec_decode : ByteArray -> result DerNode.

(** The external [elliptic] library: [new EC(name).keyFromPrivate(priv)
    .getPublic()] as the affine coordinates [(getX(), getY())] of the public
    point, or the exception the library throws. *)
Variable EC_getPublic : string -> ByteArray -> result (N * N).

(** *** Property access

    Every accessor [Key] installs is modelled by the function its getter
    and setter compute; [that[name]] dispatches on the name.  The accessors
    form layers, each reading and writing only through the layers below it:
    data properties and human aliases ([getJwk]), base-64 codecs
    ([getCodec]), importers ([getImport]) and asserted aliases
    ([getProperty]).  The factory installs them in this order, and no
    accessor is used before it is installed.

    The setters are typed in [Key.ts] ([input: ByteArray], [keyPair:
    BinaryKeyPair]); handed a value of another type the model raises
    [TypeError].  A setter that throws yields no object: a construction
    that fails returns no key. *)

(** Lines 463-467: [get: () => that[target]], [set: (value) => that[target] = value]. *)
Definition getJwk (that : Obj) (name : string) : Value :=
  match assoc name Aliases with
  | Some target => getData that target
  | None => getData that name
  end.

Definition setJwk (that : Obj) (name : string) (value : Value) : Obj :=
  match assoc name Aliases with
  | Some target => <[target := value]> that
  | None => <[name := value]> that
  end.

(** Lines 472-476.  The getter is [that[target] !== undefined &&
    Base64.decode(that[target])]: it yields [false], not [undefined], when
    the base field is [undefined]. *)
Definition getCodec (that : Obj) (name : string) : result Value :=
  match assoc name Base64Codecs with
  | Some target =>
      match getData that target with
      | VUndefined => ok (VBool false)
      | VString text => ok (VBytes (Base64.decode text))
      | _ => throw (TypeError "Base64.decode: string expected")
      end
  | None => ok (getJwk that name)
  end.

Definition setCodec (that : Obj) (name : string) (value : Value) : result Obj :=
  match assoc name Base64Codecs with
  | Some target =>
      match value with
      | VUndefined => ok (<[target := VUndefined]> that)
      | VBytes bytes => ok (<[target := VString (Base64.encode bytes true)]> that)
      | _ => throw (TypeError "Base64.encode: ByteArray expected")
      end
  | None => ok (setJwk that name value)
  end.

(** Lines 420-440. *)
Definition inferCurve (key : Obj) (bytes : nat) : result Obj :=
  if negb (truthy (getJwk key "curve")) then
    if (bytes =? 66)%nat then ok (setJwk key "curve" (VString CurveType.p521))
    else if (bytes =? 48)%nat then ok (setJwk key "curve" (VString CurveType.p384))
    else if (bytes =? 32)%nat then ok (setJwk key "curve" (VString CurveType.p256))
    else throw (KeyError "Cannot infer named curve from key length")
  else ok key.

(** *** Importers (module [Translators], lines 247-397) *)

Definition importCurve (that : Obj) (curve : string) : Obj :=
  setJwk (setJwk that "type" (VString KeyType.EC)) "curve" (VString curve).

(** Lines 342-376: public key bytes in SEC1/SPKI format. *)
Definition publicBits_set (that : Obj) (input : Value) : result Obj :=
  match input with
  | VBytes input =>
      if Nat.even (length input) then throw (KeyError "Invalid public key encoding")
      else
        _ ← match Byte.to_N <$> input !! 0%nat with
            | Some format =>
                if (format =? 2)%N || (format =? 3)%N
                then throw (KeyError "Unsupported public key compression")
                else if (format =? 4)%N then ok tt
                else if (format =? 5)%N
                then throw (KeyError "Illegal public key format specifier")
                else ok tt
            | None => ok tt
            end;
        let coordinateLength := ((length input - 1) / 2)%nat in
        that ← inferCurve that coordinateLength;
        let that := setJwk that "type" (VString KeyType.EC) in
        that ← setCodec that "xBits" (VBytes (slice input 1 (coordinateLength + 1)));
        setCodec that "yBits" (VBytes (slice_from input (coordinateLength + 1)))
  | _ => throw (TypeError "publicBits: ByteArray expected")
  end.

Definition publicBits_get (that : Obj) : result Value :=
  xBits ← getCodec that "xBits";
  if isUndefined xBits then ok VUndefined
  else
    yBits ← getCodec that "yBits";
    if isUndefined yBits then ok VUndefined
    else
      xBits ← getCodec that "xBits";
      x ← spread xBits;
      yBits ← getCodec that "yBits";
      y ← spread yBits;
      ok (VBytes (x04 :: x ++ y)).

(** Lines 249-273: SEC1 private key. *)
Definition sec1_set (that : Obj) (input : Value) : result Obj :=
  match input with
  | VBytes input =>
      decoded ← DerCodec_decode input;
      let versionNode := element (Some decoded) 0 in
      checkDerVersion "SEC 1" versionNode 1;;
      let curveNode := element (element (Some decoded) 2) 0 in
      curve ← getDerCurve "SEC 1" curveNode;
      let keyNode := element (Some decoded) 1 in
      key ← getDerKey "SEC 1" keyNode OctetString;
      setCodec (importCurve that curve) "privateBits" (VBytes key)
  | _ => throw (TypeError "DerCodec.decode: ByteArray expected")
  end.

Definition sec1_get (that : Obj) : result Value :=
  throw (KeyError "SEC1 export Not implemented").

(** Lines 276-310: PKCS #8 private key. *)
Definition pkcs8_set (that : Obj) (input : Value) : result Obj :=
  match input with
  | VBytes input =>
      outer ← DerCodec_decode input;
      let version := element (Some outer) 0 in
      checkDerVersion "PKCS #8" version 0;;
      let algorithmElements := n ← element (Some outer) 1; _elements n in
      algorithm ← getDerObjectID "PKCS #8" (l ← algorithmElements; l !! 0%nat);
      if negb (String.eqb (toHex algorithm) Asn1ObjectID.ecPublicKey)
      then throw (KeyError "Unsupported PKCS #8 decryption algorithm")
      else
        curve ← getDerCurve "PKCS #8" (l ← algorithmElements; l !! 1%nat);
        innerBytes ← match _elements outer with
                     | None => ok None
                     | Some elements =>
                         match elements !! 2%nat with
                         | Some node => ok (_bytes node)
                         | None =>
                             throw (TypeError "Cannot read properties of undefined")
                         end
                     end;
        match innerBytes with
        | None => throw (KeyError "Invalid PKCS #8 key")
        | Some innerBytes =>
            inner ← DerCodec_decode innerBytes;
            key ← getDerKey "PKCS #8" (element (Some inner) 1) OctetString;
            setCodec (importCurve that curve) "privateBits" (VBytes key)
        end
  | _ => throw (TypeError "DerCodec.decode: ByteArray expected")
  end.

Definition pkcs8_get (that : Obj) : result Value :=
  throw (KeyError "PKCS #8 export not implemented").

(** Lines 313-339: SPKI public key. *)
Definition spki_set (that : Obj) (input : Value) : result Obj :=
  match input with
  | VBytes input =>
      decoded ← DerCodec_decode input;
      let algorithmElements := n ← element (Some decoded) 0; _elements n in
      algorithm ← getDerObjectID "SPKI" (l ← algorithmElements; l !! 0%nat);
      if negb (String.eqb (toHex algorithm) Asn1ObjectID.ecPublicKey)
      then throw (KeyError "Unsupported SPKI decryption algorithm")
      else
        curve ← getDerCurve "SPKI" (l ← algorithmElements; l !! 1%nat);
        key ← getDerKey "SPKI" (element (Some decoded) 1) BitString;
        publicBits_set (importCurve that curve) (VBytes key)
  | _ => throw (TypeError "DerCodec.decode: ByteArray expected")
  end.

Definition spki_get (that : Obj) : result Value :=
  throw (KeyError "SPKI export not implemented").

(** Lines 379-396: the [BinaryKeyPair] structure. *)
Definition keyPairBits_set (that : Obj) (keyPair : Value) : result Obj :=
  match keyPair with
  | VKeyPair publicKey privateKey =>
      that ← publicBits_set that publicKey;
      setCodec that "privateBits" privateKey
  | _ => throw (TypeError "keyPairBits: BinaryKeyPair expected")
  end.

Definition keyPairBits_get (that : Obj) : result Value :=
  publicBits ← publicBits_get that;
  privateBits ← getCodec that "privateBits";
  if isUndefined publicBits || isUndefined privateBits then ok VUndefined
  else ok (VKeyPair publicBits privateBits).

Record Translator : Type :=
  { translator_set : Obj -> Value -> result Obj;
    translator_get : Obj -> result Value }.

(** [Object.entries(Translators)], in declaration order. *)
Definition Translators : list (string * Translator) :=
  [("sec1", {| translator_set := sec1_set; translator_get := sec1_get |});
   ("pkcs8", {| translator_set := pkcs8_set; translator_get := pkcs8_get |});
   ("spki", {| translator_set := spki_set; translator_get := spki_get |});
   ("publicBits", {| translator_set := publicBits_set; translator_get := publicBits_get |});
   ("keyPairBits",
     {| translator_set := keyPairBits_set; translator_get := keyPairBits_get |})].

Fixpoint translator (name : string) (entries : list (string * Translator))
  : option Translator :=
  match entries with
  | [] => None
  | (key, t) :: rest => if String.eqb key name then Some t else translator name rest
  end.

Definition getImport (that : Obj) (name : string) : result Value :=
  match translator name Translators with
  | Some t => translator_get t that
  | None => getCodec that name
  end.

Definition setImport (that : Obj) (name : string) (value : Value) : result Obj :=
  match translator name Translators with
  | Some t => translator_set t that value
  | None => setCodec that name value
  end.

(** Lines 489-502: asserted aliases. *)
Definition getProperty (that : Obj) (name : string) : result Value :=
  match assoc name AssertedAliases with
  | Some target =>
      result ← getImport that target;
      if isUndefined result
      then throw (KeyError ("Key field " +:+ target +:+ " is not defined"))
      else ok result
  | None => getImport that name
  end.

Definition setProperty (that : Obj) (name : string) (value : Value) : result Obj :=
  match assoc name AssertedAliases with
  | Some target => setImport that target value
  | None => setImport that name value
  end.

(** *** The factory (lines 445-545) *)

(** Lines 449-452: base JWK properties are copied as they are, an explicit
    [undefined] included.  [properties.hasOwnProperty] is the method of
    [Object.prototype]: the partial is taken to have no own property of
    that name, which would shadow it. *)
Definition copyBase (properties : Obj) (key : string) (that : Obj) : result Obj :=
  match properties !! key with
  | Some value => ok (<[key := value]> that)
  | None => ok that
  end.

(** Lines 453-458: [that[name] = d.value] when [properties] has an own
    property [name] whose value is not [undefined]. *)
Definition assign (properties : Obj) (name : string) (that : Obj) : result Obj :=
  match properties !! name with
  | Some value => if isUndefined value then ok that else setProperty that name value
  | None => ok that
  end.

(** Lines 446-505: the object after the five installation loops, "in
    reverse-priority order": base fields, aliases, codecs and importers
    ([installOverlays], lines 446-486), then the asserted aliases
    ([installAsserted], lines 489-505). *)
Definition installOverlays (properties : Obj) : result Obj :=
  that ← forEach (copyBase properties) JWK_KEYS ∅;
  that ← forEach (assign properties) Aliases.*1 that;
  that ← forEach (assign properties) Base64Codecs.*1 that;
  forEach (assign properties) Translators.*1 that.

Definition installAsserted (properties : Obj) (that : Obj) : result Obj :=
  forEach (assign properties) AssertedAliases.*1 that.

Definition install (properties : Obj) : result Obj :=
  that ← installOverlays properties;
  installAsserted properties that.

(** [v.length] of a byte array. *)
Definition lengthOf (v : Value) : result nat :=
  match v with
  | VBytes bytes => ok (length bytes)
  | _ => throw (TypeError "length: ByteArray expected")
  end.

(** Lines 508-530. *)
Definition derivePublicFromPrivate (that : Obj) : result Obj :=
  if negb (isString (getJwk that "type") KeyType.EC)
  then throw (KeyError "EC key type required to compute public point")
  else if negb (truthy (getJwk that "private"))
  then throw (KeyError "EC private key required to compute public point")
  else
    let crv := getJwk that "crv" in
    match crv with
    | VString name =>
        if String.eqb name CurveType.p256 || String.eqb name CurveType.p384
           || String.eqb name CurveType.p521
        then
          let ec := removeDashes (toLowerCase name) in
          privateKey ← getProperty that "privateKey";
          match privateKey with
          | VBytes privateKey =>
              ecKey ← EC_getPublic ec privateKey;
              that ← setCodec that "xBits" (VBytes (BN_toArray ecKey.1));
              setCodec that "yBits" (VBytes (BN_toArray ecKey.2))
          | _ => throw (TypeError "keyFromPrivate: ByteArray expected")
          end
        else throw (KeyError ("Unsupported elliptic curve " +:+ toString crv))
    | _ => throw (KeyError ("Unsupported elliptic curve " +:+ toString crv))
    end.

(** Lines 533-537. *)
Definition inferKeyCurve (that : Obj) : result Obj :=
  if truthy (getJwk that "d") then
    privateKey ← getProperty that "privateKey";
    bytes ← lengthOf privateKey;
    inferCurve that bytes
  else
    xBits ← getCodec that "xBits";
    if truthy xBits then
      xBits ← getCodec that "xBits";
      bytes ← lengthOf xBits;
      inferCurve that bytes
    else ok that.

(** Lines 539-541. *)
Definition derivePublic (that : Obj) : result Obj :=
  if truthy (getJwk that "d")
     && (negb (truthy (getJwk that "x")) || negb (truthy (getJwk that "y")))
  then derivePublicFromPrivate that
  else ok that.

(** Lines 532-544. *)
Definition finish (that : Obj) : result Obj :=
  if isString (getJwk that "type") KeyType.EC then
    that ← inferKeyCurve that;
    derivePublic that
  else ok that.

Definition Key (properties : Obj) : result Obj :=
  that ← install properties;
  finish that.

(** Lines 550-564.  [options] is the empty object when the argument is
    omitted; its properties come last in the object literal and so replace
    the ones written before the spread.  An argument that is neither a view
    nor a pair has no [privateKey] and no [publicKey] to read. *)
Definition PrivateKey (privateKey : Value) (options : Obj) : result Obj :=
  match privateKey with
  | VBytes _ =>
      Key (options ∪ {[ "type" := VString KeyType.EC; "privateKey" := privateKey;
                        "publicKey" := VUndefined ]})
  | VKeyPair pub priv =>
      Key (options ∪ {[ "type" := VString KeyType.EC; "privateKey" := priv;
                        "publicKey" := pub ]})
  | VUndefined => throw (TypeError "Cannot read properties of undefined")
  | _ =>
      Key (options ∪ {[ "type" := VString KeyType.EC; "privateKey" := VUndefined;
                        "publicKey" := VUndefined ]})
  end.

(** Lines 569-575. *)
Definition PublicKey (publicKey : ByteArray) (options : Obj) : result Obj :=
  Key (options ∪ {[ "type" := VString KeyType.EC; "publicKey" := VBytes publicKey ]}).


End KeyModel.

(** ** The curve library

    [elliptic] is an external dependency; [Key.ts] uses it on lines 524-529
    only, for [Q = d * G] on one of the presets [p256], [p384] and [p521].
    This is the textbook affine arithmetic of a short Weierstrass curve
    [y^2 = x^3 + a x + b] over the prime field, with the NIST parameters of
    the three presets; [None] is the point at infinity. *)
Module Elliptic.

Record Curve : Type :=
  { p : Z; a : Z; b : Z; g : Z * Z; n : Z }.

Definition p256 : Curve :=
  {| p := 0xffffffff00000001000000000000000000000000ffffffffffffffffffffffff%Z;
     a := 0xffffffff00000001000000000000000000000000fffffffffffffffffffffffc%Z;
     b := 0x5ac635d8aa3a93e7b3ebbd55769886bc651d06b0cc53b0f63bce3c3e27d2604b%Z;
     g := (0x6b17d1f2e12c4247f8bce6e563a440f277037d812deb33a0f4a13945d898c296%Z,
           0x4fe342e2fe1a7f9b8ee7eb4a7c0f9e162bce33576b315ececbb6406837bf51f5%Z);
     n := 0xffffffff00000000ffffffffffffffffbce6faada7179e84f3b9cac2fc632551%Z |}.

Definition p384 : Curve :=
  {| p := 0xfffffffffffffffffffffffffffffffffffffffffffffffffffffffffffffffeffffffff0000000000000000ffffffff%Z;
     a := 0xfffffffffffffffffffffffffffffffffffffffffffffffffffffffffffffffeffffffff0000000000000000fffffffc%Z;
     b := 0xb3312fa7e23ee7e4988e056be3f82d19181d9c6efe8141120314088f5013875ac656398d8a2ed19d2a85c8edd3ec2aef%Z;
     g := (0xaa87ca22be8b05378eb1c71ef320ad746e1d3b628ba79b9859f741e082542a385502f25dbf55296c3a545e3872760ab7%Z,
           0x3617de4a96262c6f5d9e98bf9292dc29f8f41dbd289a147ce9da3113b5f0b8c00a60b1ce1d7e819d7a431d7c90ea0e5f%Z);
     n := 0xffffffffffffffffffffffffffffffffffffffffffffffffc7634d81f4372ddf581a0db248b0a77aecec196accc52973%Z |}.

Definition p521 : Curve :=
  {| p := 0x1ffffffffffffffffffffffffffffffffffffffffffffffffffffffffffffffffffffffffffffffffffffffffffffffffffffffffffffffffffffffffffffffffff%Z;
     a := 0x1fffffffffffffffffffffffffffffffffffffffffffffffffffffffffffffffffffffffffffffffffffffffffffffffffffffffffffffffffffffffffffffffffc%Z;
     b := 0x51953eb9618e1c9a1f929a21a0b68540eea2da725b99b315f3b8b489918ef109e156193951ec7e937b1652c0bd3bb1bf073573df883d2c34f1ef451fd46b503f00%Z;
     g := (0xc6858e06b70404e9cd9e3ecb662395b4429c648139053fb521f828af606b4d3dbaa14b5e77efe75928fe1dc127a2ffa8de3348b3c1856a429bf97e7e31c2e5bd66%Z,
           0x11839296a789a3bc0045c8a5fb42c7d1bd998f54449579b446817afbd17273e662c97ee72995ef42640c550b9013fad0761353c7086a272c24088be94769fd16650%Z);
     n := 0x1fffffffffffffffffffffffffffffffffffffffffffffffffffffffffffffffffa51868783bf2f966b7fcc0148f709a5d03bb5c9b8899c47aebb6fb71e91386409%Z |}.

Definition preset (name : string) : option Curve :=
  if String.eqb name "p256" then Some p256
  else if String.eqb name "p384" then Some p384
  else if String.eqb name "p521" then Some p521
  else None.

Section Arithmetic.
Variable c : Curve.

(** Extended Euclid on [(r0, r1)], keeping [s0 * x = r0] and
    [s1 * x = r1] modulo [p]; the fuel bounds the number of divisions. *)
Fixpoint egcd (fuel : nat) (r0 r1 s0 s1 : Z) : Z :=
  match fuel with
  | O => s0
  | S fuel =>
      if (r1 =? 0)%Z then s0
      else let q := (r0 / r1)%Z in
           egcd fuel r1 (r0 - q * r1)%Z s1 (s0 - q * s1)%Z
  end.

(** The inverse in the prime field. *)
Definition inv (x : Z) : Z :=
  (egcd (2 * Z.to_nat (Z.log2 (p c)) + 2) (x mod p c) (p c) 1 0 mod p c)%Z.

Definition onCurve (P : option (Z * Z)) : bool :=
  match P with
  | None => true
  | Some (x, y) => ((y * y - (x * x * x + a c * x + b c)) mod p c =? 0)%Z
  end.

Definition add (P Q : option (Z * Z)) : option (Z * Z) :=
  match P, Q with
  | None, _ => Q
  | _, None => P
  | Some (x1, y1), Some (x2, y2) =>
      if (x1 =? x2)%Z && ((y1 + y2) mod p c =? 0)%Z then None
      else
        let l := if (x1 =? x2)%Z
                 then ((3 * x1 * x1 + a c) * inv (2 * y1)) mod p c
                 else ((y2 - y1) * inv (x2 - x1)) mod p c in
        let x3 := (l * l - x1 - x2) mod p c in
        Some (x3, (l * (x1 - x3) - y1) mod p c)
  end%Z.

Fixpoint mulPos (k : positive) (P : option (Z * Z)) : option (Z * Z) :=
  match k with
  | xH => P
  | xO k => let h := mulPos k P in add h h
  | xI k => let h := mulPos k P in add P (add h h)
  end.

Definition mul (k : N) (P : option (Z * Z)) : option (Z * Z) :=
  match k with
  | N0 => None
  | Npos k => mulPos k P
  end.
End Arithmetic.

(** [new EC(name).keyFromPrivate(priv).getPublic()], read through [getX()]
    and [getY()]: the private number is reduced modulo the group order, and
    reading a coordinate of the point at infinity fails. *)
Definition getPublic (name : string) (priv : ByteArray) : result (N * N) :=
  match preset name with
  | Some c =>
      match mul c (BN_ofBytes priv mod Z.to_N (n c)) (Some (g c)) with
      | Some (x, y) => ok (Z.to_N x, Z.to_N y)
      | None => throw (TypeError "Cannot read properties of null")
      end
  | None => throw (ExternalError ("Unknown curve " +:+ name))
  end.

End Elliptic.

(** ** Reference data *)

(** The table of the spec (3.3 (ii), 6.3): the field size in bytes that
    names each supported curve. *)
Definition curveOfLength (bytes : nat) : option string :=
  if (bytes =? 32)%nat then Some CurveType.p256
  else if (bytes =? 48)%nat then Some CurveType.p384
  else if (bytes =? 66)%nat then Some CurveType.p521
  else None.

(** DER content bytes of the curve object identifiers: [1.2.840.10045.3.1.7],
    [1.3.132.0.34] and [1.3.132.0.35]. *)
Definition oid_prime256v1 : ByteArray := [x2a; x86; x48; xce; x3d; x03; x01; x07].
Definition oid_secp384r1 : ByteArray := [x2b; x81; x04; x00; x22].
Definition oid_secp521r1 : ByteArray := [x2b; x81; x04; x00; x23].
Definition oid_ecPublicKey : ByteArray := [x2a; x86; x48; xce; x3d; x02; x01].

Definition oidNode (oid : ByteArray) : DerNode :=
  mkDerNode ObjectIdentifier (Some oid) None.

(** The node tree of a SEC1 private key (RFC 5915):
    [SEQUENCE { INTEGER 1, OCTET STRING key, [0] { OID curve } }]. *)
Definition sec1Node (oid key : ByteArray) : DerNode :=
  mkDerNode (OtherType 0x30) None
    (Some [mkDerNode UnsignedInt (Some [x01]) None;
           mkDerNode OctetString (Some key) None;
           mkDerNode (OtherType 0xa0) None (Some [oidNode oid])]).

(** The node tree of a SPKI public key (RFC 5280):
    [SEQUENCE { SEQUENCE { OID ecPublicKey, OID curve }, BIT STRING point }]. *)
Definition spkiNode (oid point : ByteArray) : DerNode :=
  mkDerNode (OtherType 0x30) None
    (Some [mkDerNode (OtherType 0x30) None (Some [oidNode oid_ecPublicKey; oidNode oid]);
           mkDerNode BitString (Some point) None]).

(** The node tree of a PKCS #8 private key (RFC 5208):
    [SEQUENCE { INTEGER 0, SEQUENCE { OID ecPublicKey, OID curve },
    OCTET STRING inner }]. *)
Definition pkcs8Node (oid inner : ByteArray) : DerNode :=
  mkDerNode (OtherType 0x30) None
    (Some [mkDerNode UnsignedInt (Some [x00]) None;
           mkDerNode (OtherType 0x30) None (Some [oidNode oid_ecPublicKey; oidNode oid]);
           mkDerNode OctetString (Some inner) None]).

(** A decoder that yields the same tree for every input, and one that
    decodes nothing. *)
Definition decodeTo (node : DerNode) : ByteArray -> result DerNode :=
  fun _ => ok node.

Definition decodeNothing : ByteArray -> result DerNode :=
  fun _ => throw (ExternalError "DerCodec.decode").

(** The 32-byte P-256 private scalar 379, its public point, and the key
    [PrivateKey] builds from it. *)
Definition scalar379 : ByteArray := repeat x00 30 ++ [x01; x7b].

Definition point379 : N * N :=
  (0x5543894af3d00ed7d740abdbd75c96b06877b787db5f70eea78b90a8d7c00a,
   0xbb4c85a3d8ea29efaafa24406912dd84d5b14dc32bf656ef6c6bd58a5d943f92)%N.

Definition key379 : Obj :=
  <["y" := VString "u0yFo9jqKe-q-iRAaRLdhNWxTcMr9lbvbGvVil2UP5I"]>
    (<["x" := VString "VUOJSvPQDtfXQKvb11yWsGh3t4fbX3Dup4uQqNfACg"]>
       (<["crv" := VString CurveType.p256]>
          (<["d" := VString "AAAAAAAAAAAAAAAAAAAAAAAAAAAAAAAAAAAAAAAAAXs"]>
             (<["kty" := VString KeyType.EC]> ∅)))).

(** What [publicBits.set] stores once an input has passed its checks: the
    key type and both halves of the bytes after the format byte. *)
Definition storePoint (that : Obj) (rest : ByteArray) : Obj :=
  <["y" := VString (Base64.encode (drop (length rest / 2) rest) true)]>
    (<["x" := VString (Base64.encode (take (length rest / 2) rest) true)]>
       (<["kty" := VString KeyType.EC]> that)).

(** [properties] has no own property [name]. *)
Definition absent (properties : Obj) (name : string) : bool :=
  match properties !! name with
  | None => true
  | Some _ => false
  end.

(** [properties] has no own property [name], or one that is [undefined]. *)
Definition unset (properties : Obj) (name : string) : bool :=
  isUndefined (getData properties name).

(** The key holds a P-256 point whose coordinates are bytes 1..32 and
    33..64 of [input]. *)
Definition holdsP256Point (input : ByteArray) (key : Obj) : Prop :=
  getJwk key "curve" = VString CurveType.p256
  /\ getCodec key "xBits" = ok (VBytes (slice input 1 33))
  /\ getCodec key "yBits" = ok (VBytes (slice input 33 65))
  /\ length (slice input 1 33) = 32%nat
  /\ length (slice input 33 65) = 32%nat.


(** The names of the importers, [Object.keys(Translators)]. *)
Definition TranslatorNames : list string :=
  ["sec1"; "pkcs8"; "spki"; "publicBits"; "keyPairBits"].



(** ** Names and fields *)

(** Every property name the factory looks at: lines 15 and 399-418, and the
    members of [Translators]. *)
Definition recognisedNames : list string :=
  JWK_KEYS ++ Aliases.*1 ++ Base64Codecs.*1 ++ TranslatorNames ++ AssertedAliases.*1.

(** The data properties a key can hold: the base JWK fields copied on line
    451 and [alg], the one alias target that is not among them. *)
Definition keyFields : list string := "alg" :: JWK_KEYS.

(** Short-form DER: the encoding of a node from its tag byte and its
    content, for contents shorter than 128 bytes. *)
Definition der (tag : byte) (content : ByteArray) : ByteArray :=
  tag :: byte_of_N (N.of_nat (length content)) :: content.

(** A primitive node, and a constructed node over its children: every
    node carries its content, a constructed one its decoded children as
    well (spec 4.B). *)
Definition leaf (type : DerType) (content : ByteArray) : DerNode :=
  mkDerNode type (Some content) None.

Definition constructed (tag : N) (content : ByteArray) (elements : list DerNode)
  : DerNode :=
  mkDerNode (OtherType tag) (Some content) (Some elements).

(** The decoded tree of a SEC1 private key,
    [SEQUENCE { INTEGER 1, OCTET STRING key, [0] { OID curve } }]. *)
Definition sec1Tree (oid key : ByteArray) : DerNode :=
  constructed 0x30 (der x02 [x01] ++ der x04 key ++ der xa0 (der x06 oid))
    [leaf UnsignedInt [x01];
     leaf OctetString key;
     constructed 0xa0 (der x06 oid) [leaf ObjectIdentifier oid]].

(** The decoded tree of the key wrapped in a PKCS #8 structure,
    [SEQUENCE { INTEGER 1, OCTET STRING key }], and its encoding. *)
Definition pkcs8Inner (key : ByteArray) : DerNode :=
  constructed 0x30 (der x02 [x01] ++ der x04 key)
    [leaf UnsignedInt [x01]; leaf OctetString key].

Definition pkcs8InnerBytes (key : ByteArray) : ByteArray :=
  der x30 (der x02 [x01] ++ der x04 key).

(** The decoded tree of a PKCS #8 private key,
    [SEQUENCE { INTEGER 0, SEQUENCE { OID algorithm, OID curve },
    OCTET STRING inner }]. *)
Definition pkcs8Tree (algorithm oid inner : ByteArray) : DerNode :=
  constructed 0x30
    (der x02 [x00] ++ der x30 (der x06 algorithm ++ der x06 oid) ++ der x04 inner)
    [leaf UnsignedInt [x00];
     constructed 0x30 (der x06 algorithm ++ der x06 oid)
       [leaf ObjectIdentifier algorithm; leaf ObjectIdentifier oid];
     leaf OctetString inner].

(** The decoded tree of a SPKI public key,
    [SEQUENCE { SEQUENCE { OID algorithm, OID curve }, BIT STRING point }];
    the bit-string node holds the bytes of the point. *)
Definition spkiTree (algorithm oid point : ByteArray) : DerNode :=
  constructed 0x30
    (der x30 (der x06 algorithm ++ der x06 oid) ++ der x03 (x00 :: point))
    [constructed 0x30 (der x06 algorithm ++ der x06 oid)
       [leaf ObjectIdentifier algorithm; leaf ObjectIdentifier oid];
     leaf BitString point].


(** The private key object: type, curve and private bits, as the private
    importers leave it. *)
Definition privateObj (curve : string) (key : ByteArray) : Obj :=
  <["d" := VString (Base64.encode key true)]>
    (<["crv" := VString curve]> (<["kty" := VString KeyType.EC]> ∅)).

(** [that] with the coordinates [point] installed as lines 528-529 do. *)
Definition withPoint (that : Obj) (point : N * N) : Obj :=
  <["y" := VString (Base64.encode (BN_toArray point.2) true)]>
    (<["x" := VString (Base64.encode (BN_toArray point.1) true)]> that).

(** The preset name of the curve library, line 524. *)
Definition presetName (curve : string) : string :=
  removeDashes (toLowerCase curve).

(** A decoder for a wrapped key: the tree [innerTree] for the bytes [inner]
    and the tree [outer] for every other input. *)
Definition decodeWrapped (inner : ByteArray) (outer innerTree : DerNode)
  : ByteArray -> result DerNode :=
  fun bytes => if String.eqb (toHex bytes) (toHex inner) then ok innerTree else ok outer.

(** The fields that the steps after the alias loop can write: the targets
    of the binary aliases (lines 408-412) and the type and curve that the
    importers and [inferCurve] assign. *)
Definition keyMaterial : list string := ["kty"; "crv"; "d"; "x"; "y"].

(** [that'] differs from [that] in the fields [fields] at most. *)
Definition keeps (fields : list string) (that that' : Obj) : Prop :=
  forall key : string, key ∉ fields -> that' !! key = that !! key.

(** The names assigned after the alias loop: lines 472-505. *)
Definition materialNames : list string :=
  Base64Codecs.*1 ++ TranslatorNames ++ AssertedAliases.*1.

(** Lines 514-516: the curves the public point can be derived on. *)
Definition supportedCurve (curve : string) : bool :=
  String.eqb curve CurveType.p256 || String.eqb curve CurveType.p384
  || String.eqb curve CurveType.p521.

(** The partial [{type: "EC", curve, privateKey}]. *)
Definition curveAndPrivate (curve : string) (privateKey : ByteArray) : Obj :=
  {[ "type" := VString KeyType.EC; "curve" := VString curve;
     "privateKey" := VBytes privateKey ]}.

(** A partial that names an algorithm the JWK way. *)
Definition algOnly : Obj := {[ "alg" := VString "ES256" ]}.

(** A SEC1 sequence without the optional curve parameters:
    [SEQUENCE { INTEGER 1, OCTET STRING key }]. *)
Definition sec1Bare (key : ByteArray) : DerNode :=
  mkDerNode (OtherType 0x30) None
    (Some [mkDerNode UnsignedInt (Some [x01]) None;
           mkDerNode OctetString (Some key) None]).
(** ** The base-64 codec inverts itself *)

Lemma byte_of_to_N (b : byte) : byte_of_N (Byte.to_N b) = b.
Proof.
  unfold byte_of_N.
  pose proof (Byte.to_N_bounded b) as Hb.
  rewrite N.mod_small by lia.
  now rewrite Byte.of_to_N.
Qed.

Lemma byte_of_N_eq (n : N) (b : byte) : n = Byte.to_N b -> byte_of_N n = b.
Proof. intros ->. apply byte_of_to_N. Qed.

(** Linear arithmetic over [N] with division and remainder by constants. *)
Ltac N_lia := zify; Z.to_euclidean_division_equations; lia.

Section Base64Facts.
Import Base64.

Lemma list_ind3 {A} (P : list A -> Prop) :
  P [] -> (forall a, P [a]) -> (forall a b, P [a; b]) ->
  (forall a b c l, P l -> P (a :: b :: c :: l)) ->
  forall l, P l.
Proof.
  intros H0 H1 H2 H3 l.
  enough (P l /\ (forall a, P (a :: l)) /\ (forall a b, P (a :: b :: l))) by tauto.
  induction l as [|x l (IH0 & IH1 & IH2)]; auto.
Qed.

Lemma sextets_bounded (source : ByteArray) :
  Forall (fun n => n < 64)%N (sextets source).
Proof.
  induction source as [|a|a b|a b c l IH] using list_ind3; cbn [sextets app].
  - constructor.
  - pose proof (Byte.to_N_bounded a).
    repeat (apply Forall_cons; split; [N_lia|]). constructor.
  - pose proof (Byte.to_N_bounded a). pose proof (Byte.to_N_bounded b).
    repeat (apply Forall_cons; split; [N_lia|]). constructor.
  - pose proof (Byte.to_N_bounded a). pose proof (Byte.to_N_bounded b).
    pose proof (Byte.to_N_bounded c).
    repeat (apply Forall_cons; split; [N_lia|]). exact IH.
Qed.

Lemma bytes_of_sextets_sextets (source : ByteArray) :
  bytes_of_sextets (sextets source) = source.
Proof.
  induction source as [|a|a b|a b c l IH] using list_ind3;
    cbn [sextets app bytes_of_sextets].
  - reflexivity.
  - pose proof (Byte.to_N_bounded a).
    rewrite (byte_of_N_eq _ a) by N_lia. reflexivity.
  - pose proof (Byte.to_N_bounded a). pose proof (Byte.to_N_bounded b).
    rewrite (byte_of_N_eq _ a), (byte_of_N_eq _ b) by N_lia. reflexivity.
  - pose proof (Byte.to_N_bounded a). pose proof (Byte.to_N_bounded b).
    pose proof (Byte.to_N_bounded c).
    rewrite IH.
    rewrite (byte_of_N_eq _ a), (byte_of_N_eq _ b), (byte_of_N_eq _ c) by N_lia.
    reflexivity.
Qed.

Lemma sextet_of_char_of_sextet (urlSafe : bool) (n : N) :
  (n < 64)%N -> sextet_of_char (char_of_sextet urlSafe n) = Some n.
Proof.
  intros Hn. rewrite <- (N2Nat.id n). 
  assert (N.to_nat n < 64)%nat as Hm by lia.
  generalize dependent (N.to_nat n). clear. intros m Hm.
  do 64 (destruct m as [|m]; [destruct urlSafe; reflexivity|]). lia.
Qed.

Lemma char_of_sextet_urlChar (n : N) :
  (n < 64)%N -> urlChar (char_of_sextet true n) = true.
Proof.
  intros Hn. rewrite <- (N2Nat.id n).
  assert (N.to_nat n < 64)%nat as Hm by lia.
  generalize dependent (N.to_nat n). clear. intros m Hm.
  do 64 (destruct m as [|m]; [vm_compute; reflexivity|]). lia.
Qed.

Lemma omap_sextet_of_char (urlSafe : bool) (groups : list N) (len : nat) :
  Forall (fun n => n < 64)%N groups ->
  omap sextet_of_char (map (char_of_sextet urlSafe) groups ++ padding urlSafe len)
  = groups.
Proof.
  intros Hall. induction Hall as [|n groups Hn _ IH]; cbn [map app omap list_omap].
  - unfold padding. destruct urlSafe; [reflexivity|].
    destruct (len mod 3)%nat as [|[|[|?]]]; reflexivity.
  - rewrite sextet_of_char_of_sextet by assumption. cbn. now rewrite IH.
Qed.

(** Round trip (spec 4.C, 8.3): [decode (encode b) = b] for every byte
    sequence, with either alphabet. *)
Lemma decode_encode (source : ByteArray) (urlSafe : bool) :
  decode (encode source urlSafe) = source.
Proof.
  unfold decode, encode.
  rewrite list_ascii_of_string_of_list_ascii.
  rewrite omap_sextet_of_char by apply sextets_bounded.
  apply bytes_of_sextets_sextets.
Qed.

(** The URL-safe encoding is unpadded base64url text: all its characters
    belong to the URL-safe alphabet, so none of them is [=], [+] or [/]. *)
Lemma encode_urlChars (source : ByteArray) :
  forallb urlChar (list_ascii_of_string (encode source true)) = true.
Proof.
  unfold encode, padding. rewrite list_ascii_of_string_of_list_ascii, app_nil_r.
  apply forallb_forall. intros c Hc. apply in_map_iff in Hc as (n & <- & Hn).
  apply char_of_sextet_urlChar.
  pose proof (sextets_bounded source) as Hall.
  rewrite Forall_forall in Hall. apply Hall. now apply list_elem_of_In.
Qed.

Lemma encode_nil (urlSafe : bool) : encode [] urlSafe = "".
Proof. destruct urlSafe; reflexivity. Qed.

Lemma encode_nonempty (a : byte) (source : ByteArray) (urlSafe : bool) :
  encode (a :: source) urlSafe <> "".
Proof.
  unfold encode. destruct source as [|b [|c rest]]; cbn [sextets map app]; discriminate.
Qed.
End Base64Facts.


(** ** Facts about the accessors *)

Ltac lookup_simpl :=
  repeat first
    [ rewrite lookup_insert_eq
    | rewrite lookup_insert_ne by discriminate
    | rewrite lookup_empty ].

Lemma bind_ok_l {A B} (a : A) (k : A -> result B) : (ok a ≫= k) = k a.
Proof. reflexivity. Qed.

Lemma bind_throw_l {A B} (e : Error) (k : A -> result B) : (throw e ≫= k) = throw e.
Proof. reflexivity. Qed.

Lemma bind_ok_r {A} (m : result A) : (a ← m; ok a) = m.
Proof. now destruct m. Qed.

(** Split a conjunction into its parts, and nothing else. *)
Ltac conjuncts := repeat match goal with |- _ /\ _ => split end.

(** Run the steps of a computation that have already produced a value. *)
Ltac run := repeat (rewrite bind_ok_l || rewrite bind_throw_l); cbv beta.

Section AccessorFacts.
Variable DerCodec_decode : ByteArray -> result DerNode.
Variable EC_getPublic : string -> ByteArray -> result (N * N).

Lemma forEach_cons {A S} (f : A -> S -> result S) (a : A) (l : list A) (s : S) :
  forEach f (a :: l) s = (s' ← f a s; forEach f l s').
Proof. reflexivity. Qed.

Lemma forEach_app {A S} (f : A -> S -> result S) (l1 l2 : list A) (s : S) :
  forEach f (l1 ++ l2) s = (s' ← forEach f l1 s; forEach f l2 s').
Proof.
  revert s. induction l1 as [|a l1 IH]; intros s; cbn; [reflexivity|].
  destruct (f a s) as [e|s']; cbn; [reflexivity|apply IH].
Qed.

Lemma setCodec_bytes (that : Obj) (alias target : string) (bytes : ByteArray) :
  assoc alias Base64Codecs = Some target ->
  setCodec that alias (VBytes bytes)
  = ok (<[target := VString (Base64.encode bytes true)]> that).
Proof. intros H. unfold setCodec. now rewrite H. Qed.

Lemma getCodec_text (that : Obj) (alias target text : string) :
  assoc alias Base64Codecs = Some target ->
  that !! target = Some (VString text) ->
  getCodec that alias = ok (VBytes (Base64.decode text)).
Proof. intros H Ht. unfold getCodec, getData. now rewrite H, Ht. Qed.

Lemma getCodec_absent (that : Obj) (alias target : string) :
  assoc alias Base64Codecs = Some target ->
  getData that target = VUndefined ->
  getCodec that alias = ok (VBool false).
Proof. intros H Ht. unfold getCodec. now rewrite H, Ht. Qed.

(** A codec getter never yields [undefined]. *)
Lemma getCodec_defined (that : Obj) (alias target : string) :
  assoc alias Base64Codecs = Some target ->
  getCodec that alias <> ok VUndefined.
Proof.
  intros H. unfold getCodec. rewrite H.
  destruct (getData that target); discriminate.
Qed.

Lemma inferCurve_known (key : Obj) (bytes : nat) :
  truthy (getJwk key "curve") = true -> inferCurve key bytes = ok key.
Proof. intros H. unfold inferCurve. now rewrite H. Qed.

Lemma inferCurve_unknown (key : Obj) (bytes : nat) :
  truthy (getJwk key "curve") = false ->
  inferCurve key bytes
  = match curveOfLength bytes with
    | Some curve => ok (<["crv" := VString curve]> key)
    | None => throw (KeyError "Cannot infer named curve from key length")
    end.
Proof.
  intros H. unfold inferCurve, curveOfLength. rewrite H. cbn [negb].
  destruct (bytes =? 66)%nat eqn:H66.
  - apply Nat.eqb_eq in H66 as ->. reflexivity.
  - destruct (bytes =? 48)%nat eqn:H48.
    + apply Nat.eqb_eq in H48 as ->. reflexivity.
    + destruct (bytes =? 32)%nat; reflexivity.
Qed.

Lemma publicBits_set_even (that : Obj) (input : ByteArray) :
  Nat.even (length input) = true ->
  publicBits_set that (VBytes input) = throw (KeyError "Invalid public key encoding").
Proof. intros H. unfold publicBits_set. now rewrite H. Qed.

Lemma slice_after_format (format : byte) (rest : ByteArray) (n : nat) :
  slice (format :: rest) 1 (n + 1) = take n rest
  /\ slice_from (format :: rest) (n + 1) = drop n rest.
Proof.
  unfold slice, slice_from. rewrite Nat.add_1_r. cbn [drop].
  replace (S n - 1)%nat with n by lia. split; reflexivity.
Qed.

Lemma publicBits_set_odd (that : Obj) (format : byte) (rest : ByteArray) :
  Nat.even (length rest) = true ->
  publicBits_set that (VBytes (format :: rest))
  = if (Byte.to_N format =? 2)%N || (Byte.to_N format =? 3)%N
    then throw (KeyError "Unsupported public key compression")
    else if (Byte.to_N format =? 5)%N
    then throw (KeyError "Illegal public key format specifier")
    else that' ← inferCurve that (length rest / 2); ok (storePoint that' rest).
Proof.
  intros Heven. unfold publicBits_set.
  cbn [length]. rewrite Nat.even_succ, <- Nat.negb_even, Heven. cbn [negb].
  cbn [lookup list_lookup fmap option_fmap option_map].
  replace (S (length rest) - 1)%nat with (length rest) by lia.
  destruct (slice_after_format format rest (length rest / 2)) as [-> ->].
  destruct ((to_N format =? 2)%N || (to_N format =? 3)%N); [reflexivity|].
  assert (forall that', (that'' ← setCodec (setJwk that' "type" (VString KeyType.EC))
                                     "xBits" (VBytes (take (length rest / 2) rest));
                       setCodec that'' "yBits" (VBytes (drop (length rest / 2) rest)))
                      = ok (storePoint that' rest)) as Hstore by reflexivity.
  destruct (to_N format =? 4)%N eqn:H4.
  - apply N.eqb_eq in H4. rewrite H4. cbn [N.eqb Pos.eqb mbind result_bind].
    destruct (inferCurve that (length rest / 2)) as [e|that']; [reflexivity|apply Hstore].
  - destruct (to_N format =? 5)%N; [reflexivity|]. cbn [mbind result_bind].
    destruct (inferCurve that (length rest / 2)) as [e|that']; [reflexivity|apply Hstore].
Qed.

Lemma storePoint_xBits (that : Obj) (rest : ByteArray) :
  getCodec (storePoint that rest) "xBits" = ok (VBytes (take (length rest / 2) rest)).
Proof.
  unfold storePoint. erewrite getCodec_text; [|reflexivity|].
  - now rewrite decode_encode.
  - now lookup_simpl.
Qed.

Lemma storePoint_yBits (that : Obj) (rest : ByteArray) :
  getCodec (storePoint that rest) "yBits" = ok (VBytes (drop (length rest / 2) rest)).
Proof.
  unfold storePoint. erewrite getCodec_text; [|reflexivity|].
  - now rewrite decode_encode.
  - now lookup_simpl.
Qed.

(** *** Finishing a key that has no private part *)

Lemma getJwk_data (that : Obj) (name : string) :
  assoc name Aliases = None -> getJwk that name = getData that name.
Proof. intros H. unfold getJwk. now rewrite H. Qed.

Lemma getJwk_alias (that : Obj) (alias target : string) :
  assoc alias Aliases = Some target -> getJwk that alias = getData that target.
Proof. intros H. unfold getJwk. now rewrite H. Qed.

Lemma storePoint_other (that : Obj) (rest : ByteArray) (name : string) :
  name <> "y" -> name <> "x" -> name <> "kty" ->
  getData (storePoint that rest) name = getData that name.
Proof.
  intros Hy Hx Hkty. unfold getData, storePoint.
  now rewrite !lookup_insert_ne by congruence.
Qed.

Lemma finish_storePoint (that : Obj) (rest : ByteArray) :
  truthy (getData that "d") = false ->
  truthy (getData that "crv") = true ->
  finish DerCodec_decode EC_getPublic (storePoint that rest) = ok (storePoint that rest).
Proof.
  intros Hd Hcrv. unfold finish.
  rewrite (getJwk_alias _ "type" "kty") by reflexivity.
  replace (getData (storePoint that rest) "kty") with (VString KeyType.EC)
    by (unfold getData, storePoint; now lookup_simpl).
  cbn [isString String.eqb Ascii.eqb Bool.eqb KeyType.EC andb].
  unfold inferKeyCurve, derivePublic.
  rewrite !(getJwk_data _ "d") by reflexivity.
  rewrite storePoint_other, Hd by discriminate.
  rewrite storePoint_xBits. run. cbn [truthy lengthOf]. run.
  rewrite inferCurve_known.
  - run. rewrite (getJwk_data _ "d"), storePoint_other, Hd by (reflexivity || discriminate).
    reflexivity.
  - rewrite (getJwk_alias _ "curve" "crv") by reflexivity.
    now rewrite storePoint_other by discriminate.
Qed.

(** *** The installation loops *)

Lemma copyBase_absent (properties : Obj) (key : string) (that : Obj) :
  absent properties key = true -> copyBase properties key that = ok that.
Proof. unfold absent, copyBase. now destruct (properties !! key). Qed.

Lemma assign_unset (properties : Obj) (name : string) (that : Obj) :
  unset properties name = true -> assign DerCodec_decode properties name that = ok that.
Proof.
  unfold unset, assign, getData.
  destruct (properties !! name) as [v|]; cbn; [|reflexivity]. now intros ->.
Qed.

Lemma assign_set (properties : Obj) (name : string) (that : Obj) (value : Value) :
  properties !! name = Some value -> isUndefined value = false ->
  assign DerCodec_decode properties name that = setProperty DerCodec_decode that name value.
Proof. intros H Hv. unfold assign. now rewrite H, Hv. Qed.

Lemma forEach_copyBase_skip (properties : Obj) (names : list string) (that : Obj) :
  forallb (absent properties) names = true ->
  forEach (copyBase properties) names that = ok that.
Proof.
  induction names as [|name names IH]; cbn [forallb forEach]; [reflexivity|].
  intros [Hname Hnames]%andb_prop. rewrite copyBase_absent by assumption. now apply IH.
Qed.

Lemma forEach_assign_skip (properties : Obj) (names : list string) (that : Obj) :
  forallb (unset properties) names = true ->
  forEach (assign DerCodec_decode properties) names that = ok that.
Proof.
  induction names as [|name names IH]; cbn [forallb forEach]; [reflexivity|].
  intros [Hname Hnames]%andb_prop. rewrite assign_unset by assumption. now apply IH.
Qed.

(** A loop in which [properties] defines a single name performs that one
    assignment. *)
Lemma forEach_assign_single (properties : Obj) (before after : list string)
    (name : string) (value : Value) (that : Obj) :
  forallb (unset properties) before = true ->
  properties !! name = Some value -> isUndefined value = false ->
  forallb (unset properties) after = true ->
  forEach (assign DerCodec_decode properties) (before ++ name :: after) that
  = setProperty DerCodec_decode that name value.
Proof.
  intros Hbefore Hname Hvalue Hafter.
  rewrite forEach_app, forEach_assign_skip by assumption. run.
  cbn [forEach]. rewrite (assign_set _ _ _ value) by assumption.
  destruct (setProperty DerCodec_decode that name value) as [e|that']; [reflexivity|].
  change (@inr Error Obj that') with (ok that'). run.
  now apply forEach_assign_skip.
Qed.

End AccessorFacts.

(** ** The raw SEC1 public point importer *)

(** C6 (as amended).  For every byte array handed to [publicBits.set]: an
    even length fails with "Invalid public key encoding" (BadFormat); an odd
    length with format byte 0x02 or 0x03 fails with "Unsupported public key
    compression" (UnsupportedCompression); with format byte 0x05 it fails
    with "Illegal public key format specifier" (BadFormat); with format byte
    0x04 the input passes the format checks and is accepted when the key
    already has a curve or the coordinate length is 32, 48 or 66, and fails
    with "Cannot infer named curve from key length" (UnknownCurve)
    otherwise. *)
Theorem publicBits_set_format_checks (that : Obj) (format : byte) (rest : ByteArray) :
  (forall input : ByteArray,
      Nat.even (length input) = true ->
      publicBits_set that (VBytes input) = throw (KeyError "Invalid public key encoding"))
  /\ (Nat.even (length rest) = true ->
      (Byte.to_N format = 2%N \/ Byte.to_N format = 3%N ->
       publicBits_set that (VBytes (format :: rest))
       = throw (KeyError "Unsupported public key compression"))
      /\ (Byte.to_N format = 5%N ->
          publicBits_set that (VBytes (format :: rest))
          = throw (KeyError "Illegal public key format specifier"))
      /\ (Byte.to_N format = 4%N ->
          publicBits_set that (VBytes (format :: rest))
          = if truthy (getJwk that "curve") then ok (storePoint that rest)
            else match curveOfLength (length rest / 2) with
                 | Some curve => ok (storePoint (<["crv" := VString curve]> that) rest)
                 | None => throw (KeyError "Cannot infer named curve from key length")
                 end)).
Proof.
  split; [apply publicBits_set_even|].
  intros Heven. rewrite (publicBits_set_odd that format rest Heven).
  split; [|split].
  - intros [-> | ->]; reflexivity.
  - intros ->. reflexivity.
  - intros ->. cbn [N.eqb Pos.eqb orb].
    destruct (truthy (getJwk that "curve")) eqn:Hcurve.
    + now rewrite inferCurve_known.
    + rewrite inferCurve_unknown by assumption.
      destruct (curveOfLength (length rest / 2)); reflexivity.
Qed.

Lemma publicBits_set_format_checks_witness :
  publicBits_set ∅ (VBytes [x04; x01]) = throw (KeyError "Invalid public key encoding")
  /\ publicBits_set ∅ (VBytes [x02; x01; x02])
     = throw (KeyError "Unsupported public key compression")
  /\ publicBits_set ∅ (VBytes [x05; x01; x02])
     = throw (KeyError "Illegal public key format specifier")
  /\ publicBits_set ∅ (VBytes (x04 :: repeat x07 64))
     = ok (storePoint (<["crv" := VString CurveType.p256]> ∅) (repeat x07 64)).
Proof.
  split; [|split; [|split]].
  - apply (proj1 (publicBits_set_format_checks ∅ x04 []) [x04; x01]). reflexivity.
  - apply (proj2 (publicBits_set_format_checks ∅ x02 [x01; x02]) eq_refl). now left.
  - apply (proj2 (publicBits_set_format_checks ∅ x05 [x01; x02]) eq_refl). reflexivity.
  - exact (proj2 (proj2 (proj2 (publicBits_set_format_checks ∅ x04 (repeat x07 64)) eq_refl))
             eq_refl).
Defined.

(** C6, counterexample.  The three bytes [04 01 02] have odd length and the
    uncompressed format byte, yet a key without a curve does not accept
    them. *)
Lemma uncompressed_point_not_accepted :
  ~ (exists that' : Obj, publicBits_set ∅ (VBytes [x04; x01; x02]) = ok that').
Proof. intros [that' H]. vm_compute in H. discriminate H. Qed.

(** C7 (as amended).  For every odd-length byte array whose first byte is
    none of 0x02, 0x03, 0x04 and 0x05, [publicBits.set] raises no format
    error and behaves exactly as on the same bytes behind the format byte
    0x04: whenever it accepts, [xBits] and [yBits] are the two halves of the
    remainder, and it accepts when the key already has a curve or the
    coordinate length is 32, 48 or 66. *)
Theorem publicBits_set_unchecked_format (that : Obj) (format : byte) (rest : ByteArray) :
  Nat.even (length rest) = true ->
  Byte.to_N format <> 2%N -> Byte.to_N format <> 3%N ->
  Byte.to_N format <> 4%N -> Byte.to_N format <> 5%N ->
  publicBits_set that (VBytes (format :: rest)) = publicBits_set that (VBytes (x04 :: rest))
  /\ (forall that' : Obj,
         publicBits_set that (VBytes (format :: rest)) = ok that' ->
         getCodec that' "xBits" = ok (VBytes (take (length rest / 2) rest))
         /\ getCodec that' "yBits" = ok (VBytes (drop (length rest / 2) rest)))
  /\ (truthy (getJwk that "curve") = true \/ is_Some (curveOfLength (length rest / 2)) ->
      exists that' : Obj, publicBits_set that (VBytes (format :: rest)) = ok that').
Proof.
  intros Heven H2 H3 _ H5.
  rewrite !publicBits_set_odd by assumption.
  apply N.eqb_neq in H2, H3, H5. rewrite H2, H3, H5.
  cbn [orb N.eqb Pos.eqb to_N].
  split; [reflexivity|split].
  - intros that' H.
    destruct (inferCurve that (length rest / 2)) as [e|that'']; [discriminate H|].
    injection H as <-. split; [apply storePoint_xBits|apply storePoint_yBits].
  - intros [Hcurve | [curve Hcurve]].
    + rewrite inferCurve_known by assumption. eexists. reflexivity.
    + destruct (truthy (getJwk that "curve")) eqn:Hknown.
      * rewrite inferCurve_known by assumption. eexists. reflexivity.
      * rewrite inferCurve_unknown, Hcurve by assumption. eexists. reflexivity.
Qed.

Lemma publicBits_set_unchecked_format_witness :
  publicBits_set ∅ (VBytes (x06 :: repeat x07 64))
  = publicBits_set ∅ (VBytes (x04 :: repeat x07 64))
  /\ exists that' : Obj,
      publicBits_set ∅ (VBytes (x06 :: repeat x07 64)) = ok that'
      /\ getCodec that' "xBits" = ok (VBytes (repeat x07 32))
      /\ getCodec that' "yBits" = ok (VBytes (repeat x07 32)).
Proof.
  destruct (publicBits_set_unchecked_format ∅ x06 (repeat x07 64))
    as (Hsame & Hsplit & Haccept);
    [reflexivity|discriminate|discriminate|discriminate|discriminate|].
  split; [exact Hsame|].
  destruct Haccept as [that' Hok]; [right; eexists; reflexivity|].
  exists that'. split; [exact Hok|]. exact (Hsplit that' Hok).
Defined.

(** C7, counterexample.  [06 01 02] has odd length and a first byte outside
    0x02..0x05, yet it is not accepted "without any error". *)
Lemma unchecked_format_not_accepted :
  ~ (exists that' : Obj, publicBits_set ∅ (VBytes [x06; x01; x02]) = ok that').
Proof. intros [that' H]. vm_compute in H. discriminate H. Qed.

(** ** Keys from a raw public point *)

Section PublicPoint.
Variable DerCodec_decode : ByteArray -> result DerNode.
Variable EC_getPublic : string -> ByteArray -> result (N * N).

Ltac skip_loop := rewrite forEach_assign_skip by (vm_compute; reflexivity); run.

Ltac import_point rest Hlen :=
  change (setProperty DerCodec_decode ?that _ ?v) with (publicBits_set that v);
  rewrite publicBits_set_odd by (now rewrite Hlen);
  cbn [to_N N.eqb Pos.eqb orb];
  rewrite inferCurve_unknown by reflexivity;
  rewrite Hlen; change (curveOfLength (64 / 2)) with (Some CurveType.p256);
  cbv iota; run.

Lemma PublicKey_p256 (rest : ByteArray) :
  length rest = 64%nat ->
  PublicKey DerCodec_decode EC_getPublic (x04 :: rest) ∅
  = ok (storePoint (<["crv" := VString CurveType.p256]> (<["kty" := VString KeyType.EC]> ∅))
          rest).
Proof.
  intros Hlen. unfold PublicKey. rewrite (left_id_L ∅ (∪)).
  unfold Key, install, installOverlays, installAsserted.
  rewrite forEach_copyBase_skip by (vm_compute; reflexivity). run.
  change (Aliases.*1)
    with (["algorithm"; "curve"] ++ "type" :: ["operations"; "private"; "extractable"]).
  rewrite (forEach_assign_single _ _ _ _ _ (VString KeyType.EC)) by (vm_compute; reflexivity).
  change (setProperty DerCodec_decode ∅ "type" (VString KeyType.EC))
    with (@ok Obj (<["kty" := VString KeyType.EC]> ∅)).
  run. do 2 skip_loop.
  change (AssertedAliases.*1) with ([] ++ "publicKey" :: ["privateKey"; "keyPair"]).
  rewrite (forEach_assign_single _ _ _ _ _ (VBytes (x04 :: rest))) by (vm_compute; reflexivity).
  import_point rest Hlen.
  apply finish_storePoint; reflexivity.
Qed.

Lemma Key_publicKey_p256 (rest : ByteArray) :
  length rest = 64%nat ->
  Key DerCodec_decode EC_getPublic {[ "publicKey" := VBytes (x04 :: rest) ]}
  = ok (storePoint (<["crv" := VString CurveType.p256]> ∅) rest).
Proof.
  intros Hlen. unfold Key, install, installOverlays, installAsserted.
  rewrite forEach_copyBase_skip by (vm_compute; reflexivity). run.
  do 3 skip_loop.
  change (AssertedAliases.*1) with ([] ++ "publicKey" :: ["privateKey"; "keyPair"]).
  rewrite (forEach_assign_single _ _ _ _ _ (VBytes (x04 :: rest))) by (vm_compute; reflexivity).
  import_point rest Hlen.
  apply finish_storePoint; reflexivity.
Qed.

Lemma Key_publicBits_p256 (rest : ByteArray) :
  length rest = 64%nat ->
  Key DerCodec_decode EC_getPublic {[ "publicBits" := VBytes (x04 :: rest) ]}
  = ok (storePoint (<["crv" := VString CurveType.p256]> ∅) rest).
Proof.
  intros Hlen. unfold Key, install, installOverlays, installAsserted.
  rewrite forEach_copyBase_skip by (vm_compute; reflexivity). run.
  do 2 skip_loop.
  change (Translators DerCodec_decode).*1
    with (["sec1"; "pkcs8"; "spki"] ++ "publicBits" :: ["keyPairBits"]).
  rewrite (forEach_assign_single _ _ _ _ _ (VBytes (x04 :: rest))) by (vm_compute; reflexivity).
  import_point rest Hlen.
  skip_loop.
  apply finish_storePoint; reflexivity.
Qed.

Lemma storePoint_holdsP256Point (that : Obj) (rest : ByteArray) :
  length rest = 64%nat ->
  getData that "crv" = VString CurveType.p256 ->
  holdsP256Point (x04 :: rest) (storePoint that rest).
Proof.
  intros Hlen Hcrv. unfold holdsP256Point.
  rewrite (getJwk_alias _ "curve" "crv"), storePoint_other, Hcrv
    by (reflexivity || discriminate).
  rewrite storePoint_xBits, storePoint_yBits, Hlen.
  unfold slice. cbn [drop Nat.sub Nat.div Nat.divmod fst].
  rewrite drop_0, (take_ge (drop 32 rest)) by (rewrite length_drop; lia).
  rewrite length_take, length_drop. repeat split; lia.
Qed.

End PublicPoint.

(** C8.  For every 65-byte input whose first byte is 0x04, the key
    constructed from it, by [PublicKey(input)], by [Key({publicKey: input})]
    or by [Key({publicBits: input})], has curve P-256, and its [xBits] and
    [yBits] are 32 bytes long each and equal bytes 1..32 and bytes 33..64 of
    the input. *)
Theorem raw_p256_public_point
    (DerCodec_decode : ByteArray -> result DerNode)
    (EC_getPublic : string -> ByteArray -> result (N * N)) (input : ByteArray) :
  length input = 65%nat -> input !! 0%nat = Some x04 ->
  (exists key : Obj,
      PublicKey DerCodec_decode EC_getPublic input ∅ = ok key
      /\ holdsP256Point input key)
  /\ (exists key : Obj,
         Key DerCodec_decode EC_getPublic {[ "publicKey" := VBytes input ]} = ok key
         /\ holdsP256Point input key)
  /\ (exists key : Obj,
         Key DerCodec_decode EC_getPublic {[ "publicBits" := VBytes input ]} = ok key
         /\ holdsP256Point input key).
Proof.
  intros Hlen Hfirst. destruct input as [|format rest]; [discriminate Hlen|].
  injection Hfirst as ->. injection Hlen as Hlen.
  split; [|split]; eexists; split.
  - now apply PublicKey_p256.
  - apply storePoint_holdsP256Point; [assumption|reflexivity].
  - now apply Key_publicKey_p256.
  - apply storePoint_holdsP256Point; [assumption|reflexivity].
  - now apply Key_publicBits_p256.
  - apply storePoint_holdsP256Point; [assumption|reflexivity].
Qed.

Lemma raw_p256_public_point_witness :
  exists key : Obj,
    PublicKey decodeNothing Elliptic.getPublic (x04 :: repeat x07 32 ++ repeat x09 32) ∅
    = ok key
    /\ getJwk key "curve" = VString CurveType.p256
    /\ getCodec key "xBits" = ok (VBytes (repeat x07 32))
    /\ getCodec key "yBits" = ok (VBytes (repeat x09 32)).
Proof.
  destruct (raw_p256_public_point decodeNothing Elliptic.getPublic
              (x04 :: repeat x07 32 ++ repeat x09 32) eq_refl eq_refl)
    as ((key & Hkey & Hcurve & Hx & Hy & _) & _).
  exists key. repeat split; assumption.
Defined.

(** ** Binary aliases *)

(** C9.  For every byte sequence [b], writing a binary alias ([privateBits],
    [xBits] or [yBits]) with [b] stores the base JWK field ([d], [x] or [y])
    as the unpadded base64url text of [b], and reading the alias back yields
    exactly [b]; conversely, reading the alias of a key whose base field is
    the unpadded base64url text of [b] yields [b]. *)
Theorem binary_alias_round_trip
    (DerCodec_decode : ByteArray -> result DerNode)
    (that : Obj) (alias target : string) (b : ByteArray) :
  In (alias, target) Base64Codecs ->
  (exists that' : Obj,
      setProperty DerCodec_decode that alias (VBytes b) = ok that'
      /\ that' !! target = Some (VString (Base64.encode b true))
      /\ forallb Base64.urlChar (list_ascii_of_string (Base64.encode b true)) = true
      /\ getProperty DerCodec_decode that' alias = ok (VBytes b))
  /\ (forall text : string,
         text = Base64.encode b true ->
         getProperty DerCodec_decode (<[target := VString text]> that) alias = ok (VBytes b)).
Proof.
  intros Hin.
  assert (assoc alias Base64Codecs = Some target
          /\ (forall (o : Obj) (v : Value),
                 setProperty DerCodec_decode o alias v = setCodec o alias v)
          /\ (forall o : Obj, getProperty DerCodec_decode o alias = getCodec o alias))
    as (Hassoc & Hset & Hget).
  { cbn in Hin. destruct Hin as [[= <- <-]|[[= <- <-]|[[= <- <-]|[]]]];
      repeat split; reflexivity. }
  split.
  - exists (<[target := VString (Base64.encode b true)]> that).
    rewrite Hset, Hget, (setCodec_bytes _ _ target) by assumption.
    repeat split.
    + apply lookup_insert_eq.
    + apply encode_urlChars.
    + rewrite (getCodec_text _ _ target (Base64.encode b true));
        [now rewrite decode_encode|assumption|apply lookup_insert_eq].
  - intros text ->. rewrite Hget.
    rewrite (getCodec_text _ _ target (Base64.encode b true));
      [now rewrite decode_encode|assumption|apply lookup_insert_eq].
Qed.

Lemma binary_alias_round_trip_witness :
  exists that' : Obj,
    setProperty decodeNothing ∅ "xBits" (VBytes [x01; x02; x03; x04]) = ok that'
    /\ that' !! "x" = Some (VString "AQIDBA")
    /\ getProperty decodeNothing that' "xBits" = ok (VBytes [x01; x02; x03; x04]).
Proof.
  destruct (binary_alias_round_trip decodeNothing ∅ "xBits" "x" [x01; x02; x03; x04])
    as ((that' & Hset & Hfield & _ & Hget) & _).
  - right. left. reflexivity.
  - exists that'. repeat split; assumption.
Defined.

(** ** Asserted reads *)

Section AssertedReads.
Variable DerCodec_decode : ByteArray -> result DerNode.

(** The general sentence of the spec holds of the getter on lines 491-497:
    an asserted alias whose target resolves to [undefined] throws
    "Key field ... is not defined" (MissingField). *)
Lemma getProperty_undefined (that : Obj) (alias target : string) :
  assoc alias AssertedAliases = Some target ->
  getImport DerCodec_decode that target = ok VUndefined ->
  getProperty DerCodec_decode that alias
  = throw (KeyError ("Key field " +:+ target +:+ " is not defined")).
Proof. intros Halias Htarget. unfold getProperty. now rewrite Halias, Htarget. Qed.

Lemma publicBits_get_defined (that : Obj) :
  publicBits_get that <> ok VUndefined.
Proof.
  unfold publicBits_get.
  pose proof (getCodec_defined that "xBits" "x" eq_refl) as Hx.
  pose proof (getCodec_defined that "yBits" "y" eq_refl) as Hy.
  destruct (getCodec that "xBits") as [e|[]]; try discriminate; try (now elim Hx);
    destruct (getCodec that "yBits") as [e'|[]]; try discriminate; now elim Hy.
Qed.

Lemma keyPairBits_get_defined (that : Obj) :
  keyPairBits_get that <> ok VUndefined.
Proof.
  unfold keyPairBits_get.
  pose proof (publicBits_get_defined that) as Hpub.
  pose proof (getCodec_defined that "privateBits" "d" eq_refl) as Hpriv.
  destruct (publicBits_get that) as [e|[]]; try discriminate; try (now elim Hpub);
    destruct (getCodec that "privateBits") as [e'|[]]; try discriminate; now elim Hpriv.
Qed.

(** No target of an asserted alias ever resolves to [undefined]: the codec
    getters yield [false] for a missing base field, so the test on line 493
    never succeeds and "Key field ... is not defined" is never thrown. *)
Lemma asserted_target_defined (that : Obj) (alias target : string) :
  In (alias, target) AssertedAliases ->
  getImport DerCodec_decode that target <> ok VUndefined
  /\ forall message : string,
      getProperty DerCodec_decode that alias <> throw (KeyError message).
Proof.
  intros Hin. cbn in Hin.
  destruct Hin as [[= <- <-]|[[= <- <-]|[[= <- <-]|[]]]].
  - split; [apply publicBits_get_defined|]. intros message.
    change (getProperty DerCodec_decode that "publicKey")
      with (result ← publicBits_get that;
            if isUndefined result
            then throw (KeyError ("Key field " +:+ "publicBits" +:+ " is not defined"))
            else ok result).
    unfold publicBits_get, getCodec.
    cbn [assoc Base64Codecs String.eqb Ascii.eqb Bool.eqb andb].
    destruct (getData that "x"); try discriminate;
      destruct (getData that "y"); discriminate.
  - split; [now apply (getCodec_defined that "privateBits" "d")|]. intros message.
    change (getProperty DerCodec_decode that "privateKey")
      with (result ← getCodec that "privateBits";
            if isUndefined result
            then throw (KeyError ("Key field " +:+ "privateBits" +:+ " is not defined"))
            else ok result).
    unfold getCodec. cbn [assoc Base64Codecs String.eqb Ascii.eqb Bool.eqb andb].
    destruct (getData that "d"); discriminate.
  - split; [apply keyPairBits_get_defined|]. intros message.
    change (getProperty DerCodec_decode that "keyPair")
      with (result ← keyPairBits_get that;
            if isUndefined result
            then throw (KeyError ("Key field " +:+ "keyPairBits" +:+ " is not defined"))
            else ok result).
    unfold keyPairBits_get, publicBits_get, getCodec.
    cbn [assoc Base64Codecs String.eqb Ascii.eqb Bool.eqb andb].
    destruct (getData that "x"); try discriminate;
      destruct (getData that "y"); try discriminate;
      destruct (getData that "d"); discriminate.
Qed.

End AssertedReads.

(** C10, evaluated on the empty key.  [Key({})] is the empty object.  Reading
    [publicKey] or [keyPair] from it ends in the run-time [TypeError] of
    spreading [false], and reading [privateKey] returns [false]; none of the
    three reads throws "Key field ... is not defined" (MissingField). *)
Theorem empty_key_asserted_reads
    (DerCodec_decode : ByteArray -> result DerNode)
    (EC_getPublic : string -> ByteArray -> result (N * N)) :
  Key DerCodec_decode EC_getPublic ∅ = ok ∅
  /\ getProperty DerCodec_decode ∅ "publicKey" = throw (TypeError "false is not iterable")
  /\ getProperty DerCodec_decode ∅ "privateKey" = ok (VBool false)
  /\ getProperty DerCodec_decode ∅ "keyPair" = throw (TypeError "false is not iterable").
Proof. conjuncts; vm_compute; reflexivity. Qed.

(** ** Curve object identifiers *)

(** C1, evaluated on the canonical identifiers.  In every import format the
    identifier [1.2.840.10045.3.1.7] yields P-256, but the canonical
    identifiers of P-384 and P-521 (content bytes [2b81040022] and
    [2b81040023]) are rejected with "Unsupported ... EC curve"
    (UnknownCurve): the table holds the byte strings [0103840022] and
    [0103840023] instead, which are not in the standard table and are
    accepted.  A complete SEC1, PKCS #8 or SPKI key that names P-384
    canonically fails to import. *)
Theorem canonical_curve_oids_rejected (type : string) :
  getDerCurve type (Some (oidNode oid_prime256v1)) = ok CurveType.p256
  /\ getDerCurve type (Some (oidNode oid_secp384r1))
     = throw (KeyError ("Unsupported " +:+ type +:+ " EC curve"))
  /\ getDerCurve type (Some (oidNode oid_secp521r1))
     = throw (KeyError ("Unsupported " +:+ type +:+ " EC curve"))
  /\ getDerCurve type (Some (oidNode [x01; x03; x84; x00; x22])) = ok CurveType.p384
  /\ getDerCurve type (Some (oidNode [x01; x03; x84; x00; x23])) = ok CurveType.p521
  /\ (forall (that : Obj) (input key : ByteArray),
         sec1_set (decodeTo (sec1Node oid_secp384r1 key)) that (VBytes input)
         = throw (KeyError "Unsupported SEC 1 EC curve"))
  /\ (forall (that : Obj) (input key : ByteArray),
         pkcs8_set (decodeTo (pkcs8Node oid_secp384r1 key)) that (VBytes input)
         = throw (KeyError "Unsupported PKCS #8 EC curve"))
  /\ (forall (that : Obj) (input point : ByteArray),
         spki_set (decodeTo (spkiNode oid_secp384r1 point)) that (VBytes input)
         = throw (KeyError "Unsupported SPKI EC curve")).
Proof. conjuncts; intros; reflexivity. Qed.

(** The table accepts three byte strings and nothing else. *)
Lemma getDerCurve_accepts (type : string) (node : option DerNode) (curve : string) :
  getDerCurve type node = ok curve ->
  exists oid : ByteArray,
    getDerObjectID type node = ok oid
    /\ ((toHex oid = "2a8648ce3d030107" /\ curve = CurveType.p256)
        \/ (toHex oid = "0103840022" /\ curve = CurveType.p384)
        \/ (toHex oid = "0103840023" /\ curve = CurveType.p521)).
Proof.
  unfold getDerCurve.
  destruct (getDerObjectID type node) as [e|oid]; cbn [mbind result_bind]; [discriminate|].
  destruct (CurveLookup !! toHex oid) as [found|] eqn:Hfound; [|discriminate].
  intros [= ->]. exists oid. split; [reflexivity|].
  unfold CurveLookup in Hfound.
  apply lookup_insert_Some in Hfound as [[<- <-]|[_ Hfound]]; [now left|].
  apply lookup_insert_Some in Hfound as [[<- <-]|[_ Hfound]]; [now right; left|].
  apply lookup_singleton_Some in Hfound as [<- <-]. now right; right.
Qed.

(** A SEC1 key and a SPKI key that name P-256 import as expected: the
    private scalar 379 gives the key [key379], its public point the same
    coordinates. *)
Example sec1_import_p256 :
  Key (decodeTo (sec1Node oid_prime256v1 scalar379)) Elliptic.getPublic
    {[ "sec1" := VBytes [x30] ]} = ok key379.
Proof. vm_compute. reflexivity. Qed.

Example spki_import_p256 :
  (key ← Key (decodeTo (spkiNode oid_prime256v1 (x04 :: repeat x07 64))) Elliptic.getPublic
           {[ "spki" := VBytes [x30] ]};
   getProperty decodeNothing key "publicKey")
  = ok (VBytes (x04 :: repeat x07 64)).
Proof. vm_compute. reflexivity. Qed.

(** ** Deriving the public point *)

Section Derivation.
Variable DerCodec_decode : ByteArray -> result DerNode.
Variable EC_getPublic : string -> ByteArray -> result (N * N).

(** What [derivePublicFromPrivate] installs are the bytes of
    [BN.toArray()], whatever their number. *)
Lemma derivePublicFromPrivate_installs (that : Obj) (curve text : string) (X Y : N) :
  getData that "kty" = VString KeyType.EC ->
  getData that "d" = VString text -> text <> "" ->
  getData that "crv" = VString curve ->
  curve = CurveType.p256 \/ curve = CurveType.p384 \/ curve = CurveType.p521 ->
  EC_getPublic (removeDashes (toLowerCase curve)) (Base64.decode text) = ok (X, Y) ->
  derivePublicFromPrivate DerCodec_decode EC_getPublic that
  = ok (<["y" := VString (Base64.encode (BN_toArray Y) true)]>
          (<["x" := VString (Base64.encode (BN_toArray X) true)]> that)).
Proof.
  intros Hkty Hd Htext Hcrv Hcurve Hpoint. unfold derivePublicFromPrivate.
  rewrite (getJwk_alias _ "type" "kty"), Hkty by reflexivity.
  rewrite (getJwk_alias _ "private" "d"), Hd by reflexivity.
  rewrite (getJwk_data _ "crv"), Hcrv by reflexivity.
  replace (truthy (VString text)) with true by (now destruct text).
  change (isString (VString KeyType.EC) KeyType.EC) with true. cbn [negb].
  replace (String.eqb curve CurveType.p256 || String.eqb curve CurveType.p384
           || String.eqb curve CurveType.p521) with true
    by (now destruct Hcurve as [->|[->| ->]]).
  change (getProperty DerCodec_decode that "privateKey")
    with (result ← getCodec that "privateBits";
          if isUndefined result
          then throw (KeyError ("Key field " +:+ "privateBits" +:+ " is not defined"))
          else ok result).
  unfold getCodec at 1. cbn [assoc Base64Codecs String.eqb Ascii.eqb Bool.eqb andb].
  rewrite Hd. run. cbn [isUndefined]. run. rewrite Hpoint. run. reflexivity.
Qed.

End Derivation.

(** The base point of each preset lies on its curve. *)
Lemma presets_on_curve :
  Elliptic.onCurve Elliptic.p256 (Some (Elliptic.g Elliptic.p256)) = true
  /\ Elliptic.onCurve Elliptic.p384 (Some (Elliptic.g Elliptic.p384)) = true
  /\ Elliptic.onCurve Elliptic.p521 (Some (Elliptic.g Elliptic.p521)) = true.
Proof. conjuncts; vm_compute; reflexivity. Qed.

(** The public point of the private scalar 379 on P-256 lies on the curve;
    its first coordinate is below [2^248]. *)
Lemma scalar379_point :
  Elliptic.getPublic "p256" scalar379 = ok point379
  /\ Elliptic.onCurve Elliptic.p256 (Some (Z.of_N point379.1, Z.of_N point379.2)) = true
  /\ (point379.1 < 2 ^ 248)%N /\ (2 ^ 248 <= point379.2)%N.
Proof. conjuncts; vm_compute; (reflexivity || discriminate). Qed.

(** C3, evaluated on a private key.  [PrivateKey] applied to the 32-byte
    P-256 scalar 379 returns a key with both coordinates installed, but its
    [xBits] has 31 bytes, not the 32 of the field size: the coordinate is
    stored as [BN.toArray()] gives it, without the leading zero byte.  The
    [publicKey] read from this key is 64 bytes long instead of 65. *)
Theorem derived_coordinate_not_padded :
  PrivateKey decodeNothing Elliptic.getPublic (VBytes scalar379) ∅ = ok key379
  /\ getJwk key379 "curve" = VString CurveType.p256
  /\ (x ← getCodec key379 "xBits"; lengthOf x) = ok 31%nat
  /\ (y ← getCodec key379 "yBits"; lengthOf y) = ok 32%nat
  /\ (publicKey ← getProperty decodeNothing key379 "publicKey"; lengthOf publicKey)
     = ok 64%nat.
Proof. conjuncts; vm_compute; reflexivity. Qed.

(** ** Asserted aliases during construction *)

(** C4 (as amended).  During construction every asserted alias
    ([publicKey], [privateKey], [keyPair]) that the partial record supplies
    with a defined value is written through to its target ([publicBits],
    [privateBits], [keyPairBits]) whatever an earlier step stored there: the
    loops run "in reverse-priority order" and the asserted aliases come
    last.  An asserted alias that the record lacks, or holds as
    [undefined], leaves the object unchanged.  In particular a supplied
    [privateKey] replaces the private bits set before. *)
Theorem asserted_aliases_write_through
    (DerCodec_decode : ByteArray -> result DerNode) (properties that : Obj) :
  (forall (alias target : string) (value : Value),
      In (alias, target) AssertedAliases ->
      properties !! alias = Some value -> isUndefined value = false ->
      assign DerCodec_decode properties alias that
      = setImport DerCodec_decode that target value)
  /\ (forallb (unset properties) AssertedAliases.*1 = true ->
      installAsserted DerCodec_decode properties that = ok that)
  /\ (forall b : ByteArray,
         unset properties "publicKey" = true ->
         properties !! "privateKey" = Some (VBytes b) ->
         unset properties "keyPair" = true ->
         exists that' : Obj,
           installAsserted DerCodec_decode properties that = ok that'
           /\ getImport DerCodec_decode that' "privateBits" = ok (VBytes b)).
Proof.
  conjuncts.
  - intros alias target value Hin Hvalue Hdefined.
    rewrite (assign_set _ _ _ _ value) by assumption.
    cbn in Hin. destruct Hin as [[= <- <-]|[[= <- <-]|[[= <- <-]|[]]]]; reflexivity.
  - apply forEach_assign_skip.
  - intros b Hpublic Hprivate Hpair.
    exists (<["d" := VString (Base64.encode b true)]> that). split.
    + unfold installAsserted.
      change (AssertedAliases.*1) with (["publicKey"] ++ "privateKey" :: ["keyPair"]).
      rewrite (forEach_assign_single _ _ _ _ _ (VBytes b)); [reflexivity| |assumption|reflexivity|].
      * cbn [forallb]. now rewrite Hpublic.
      * cbn [forallb]. now rewrite Hpair.
    + change (getImport DerCodec_decode ?o "privateBits") with (getCodec o "privateBits").
      rewrite (getCodec_text _ _ "d" (Base64.encode b true));
        [now rewrite decode_encode|reflexivity|apply lookup_insert_eq].
Qed.

Lemma asserted_aliases_write_through_witness :
  installAsserted decodeNothing ∅ (<["d" := VString "AQ"]> ∅) = ok (<["d" := VString "AQ"]> ∅)
  /\ exists that' : Obj,
      installAsserted decodeNothing {[ "privateKey" := VBytes [x02] ]}
        (<["d" := VString "AQ"]> ∅) = ok that'
      /\ getImport decodeNothing that' "privateBits" = ok (VBytes [x02]).
Proof.
  split.
  - apply (asserted_aliases_write_through decodeNothing ∅ (<["d" := VString "AQ"]> ∅)).
    reflexivity.
  - apply (asserted_aliases_write_through decodeNothing {[ "privateKey" := VBytes [x02] ]}
             (<["d" := VString "AQ"]> ∅)); reflexivity.
Defined.

(** C4, counterexample.  In [Key({privateBits: [1], privateKey: [2]})] the
    binary alias step sets the private bits to [1]; applying the asserted
    aliases then writes [2] over them. *)
Lemma asserted_alias_overwrites_target :
  ~ (forall that that' : Obj,
        installOverlays decodeNothing
          {[ "privateBits" := VBytes [x01]; "privateKey" := VBytes [x02] ]} = ok that ->
        installAsserted decodeNothing
          {[ "privateBits" := VBytes [x01]; "privateKey" := VBytes [x02] ]} that = ok that' ->
        getImport decodeNothing that "privateBits" = ok (VBytes [x01])
        /\ getImport decodeNothing that' "privateBits" = ok (VBytes [x01])).
Proof.
  intros H.
  destruct (H (<["d" := VString "AQ"]> ∅) (<["d" := VString "Ag"]> (<["d" := VString "AQ"]> ∅)))
    as [_ Hafter]; [vm_compute; reflexivity|vm_compute; reflexivity|].
  vm_compute in Hafter. discriminate Hafter.
Qed.

(** ** Curve inference *)

Section Inference.
Variable DerCodec_decode : ByteArray -> result DerNode.
Variable EC_getPublic : string -> ByteArray -> result (N * N).

Lemma truthy_text (text : string) : text <> "" -> truthy (VString text) = true.
Proof. now destruct text. Qed.

Lemma getProperty_privateKey (that : Obj) (text : string) :
  getData that "d" = VString text ->
  getProperty DerCodec_decode that "privateKey" = ok (VBytes (Base64.decode text)).
Proof.
  intros Hd.
  change (getProperty DerCodec_decode that "privateKey")
    with (result ← getCodec that "privateBits";
          if isUndefined result
          then throw (KeyError ("Key field " +:+ "privateBits" +:+ " is not defined"))
          else ok result).
  unfold getCodec. cbn [assoc Base64Codecs String.eqb Ascii.eqb Bool.eqb andb].
  now rewrite Hd.
Qed.

Lemma getCodec_xBits (that : Obj) :
  getCodec that "xBits"
  = match getData that "x" with
    | VUndefined => ok (VBool false)
    | VString text => ok (VBytes (Base64.decode text))
    | _ => throw (TypeError "Base64.decode: string expected")
    end.
Proof. reflexivity. Qed.

(** The curve of a key is not touched by the derivation of its public
    point. *)
Lemma derivePublic_curve (that key : Obj) :
  derivePublic DerCodec_decode EC_getPublic that = ok key ->
  getJwk key "curve" = getJwk that "curve".
Proof.
  unfold derivePublic, derivePublicFromPrivate.
  destruct (truthy (getJwk that "d") && _); [|now intros [= ->]].
  destruct (negb (isString (getJwk that "type") KeyType.EC)); [discriminate|].
  destruct (negb (truthy (getJwk that "private"))); [discriminate|].
  destruct (getJwk that "crv") as [| | name | | | |]; try discriminate.
  destruct (_ || String.eqb name CurveType.p521); [|discriminate].
  destruct (getProperty DerCodec_decode that "privateKey") as [e|privateKey];
    cbn [mbind result_bind]; [discriminate|].
  destruct privateKey; try discriminate.
  destruct (EC_getPublic _ _) as [e|ecKey]; cbn [mbind result_bind]; [discriminate|].
  intros [= <-]. rewrite !(getJwk_alias _ "curve" "crv") by reflexivity.
  unfold getData. now lookup_simpl.
Qed.

End Inference.

(** What lines 532-537 compute for an EC key under construction that has
    no curve.  With a [d] that is not the empty text, the curve is inferred
    from the byte length of the private key; when [d] is falsy (absent,
    [undefined] or the empty text) and [x] is a text, from the length of
    that coordinate; length 32 gives P-256, 48 gives P-384, 66 gives P-521,
    and any other length ends the construction with "Cannot infer named
    curve from key length".  When [d] is falsy and [x] is absent, nothing
    is inferred. *)
Theorem Key_infers_curve
    (DerCodec_decode : ByteArray -> result DerNode)
    (EC_getPublic : string -> ByteArray -> result (N * N))
    (properties that : Obj) :
  install DerCodec_decode properties = ok that ->
  isString (getJwk that "type") KeyType.EC = true ->
  truthy (getJwk that "curve") = false ->
  (forall text : string,
      getData that "d" = VString text -> text <> "" ->
      Key DerCodec_decode EC_getPublic properties
      = match curveOfLength (length (Base64.decode text)) with
        | Some curve =>
            derivePublic DerCodec_decode EC_getPublic (<["crv" := VString curve]> that)
        | None => throw (KeyError "Cannot infer named curve from key length")
        end
      /\ (forall key : Obj,
             Key DerCodec_decode EC_getPublic properties = ok key ->
             exists curve : string,
               curveOfLength (length (Base64.decode text)) = Some curve
               /\ getJwk key "curve" = VString curve))
  /\ (truthy (getData that "d") = false ->
      (forall text : string,
          getData that "x" = VString text ->
          Key DerCodec_decode EC_getPublic properties
          = match curveOfLength (length (Base64.decode text)) with
            | Some curve => ok (<["crv" := VString curve]> that)
            | None => throw (KeyError "Cannot infer named curve from key length")
            end)
      /\ (getData that "x" = VUndefined ->
          Key DerCodec_decode EC_getPublic properties = ok that)).
Proof.
  intros Hinstall Htype Hcurve. unfold Key. rewrite Hinstall. run.
  unfold finish. rewrite Htype. unfold inferKeyCurve.
  rewrite !(getJwk_data _ "d") by reflexivity.
  split.
  - intros text Hd Htext.
    rewrite Hd, (truthy_text text Htext), (getProperty_privateKey _ _ text Hd). run.
    cbn [lengthOf]. run. rewrite inferCurve_unknown by assumption.
    destruct (curveOfLength (length (Base64.decode text))) as [curve|] eqn:Hlen.
    + run. split; [reflexivity|]. intros key Hkey. exists curve. split; [reflexivity|].
      rewrite (derivePublic_curve _ _ _ _ Hkey).
      rewrite (getJwk_alias _ "curve" "crv") by reflexivity.
      unfold getData. now lookup_simpl.
    + run. split; [reflexivity|]. discriminate.
  - intros Hd. rewrite Hd. rewrite getCodec_xBits. split.
    + intros text Hx. rewrite Hx. run. cbn [truthy]. run. cbn [lengthOf]. run.
      rewrite inferCurve_unknown by assumption.
      destruct (curveOfLength (length (Base64.decode text))) as [curve|]; [|reflexivity].
      run. unfold derivePublic. rewrite (getJwk_data _ "d") by reflexivity.
      unfold getData in *. rewrite lookup_insert_ne by discriminate.
      now rewrite Hd.
    + intros Hx. rewrite Hx. run. cbn [truthy]. run.
      unfold derivePublic. rewrite (getJwk_data _ "d") by reflexivity. now rewrite Hd.
Qed.

Lemma Key_infers_curve_witness :
  Key decodeNothing Elliptic.getPublic
    {[ "type" := VString KeyType.EC; "privateKey" := VBytes scalar379 ]}
  = derivePublic decodeNothing Elliptic.getPublic
      (<["crv" := VString CurveType.p256]>
         (<["d" := VString "AAAAAAAAAAAAAAAAAAAAAAAAAAAAAAAAAAAAAAAAAXs"]>
            (<["kty" := VString KeyType.EC]> ∅)))
  /\ Key decodeNothing Elliptic.getPublic
       {[ "type" := VString KeyType.EC; "privateKey" := VBytes [x01; x02; x03] ]}
     = throw (KeyError "Cannot infer named curve from key length")
  /\ Key decodeNothing Elliptic.getPublic
       {[ "type" := VString KeyType.EC; "x" := VString "AQID" ]}
     = throw (KeyError "Cannot infer named curve from key length").
Proof.
  conjuncts.
  - refine (proj1 (proj1 (Key_infers_curve decodeNothing Elliptic.getPublic
                            {[ "type" := VString KeyType.EC; "privateKey" := VBytes scalar379 ]}
                            (<["d" := VString "AAAAAAAAAAAAAAAAAAAAAAAAAAAAAAAAAAAAAAAAAXs"]>
                               (<["kty" := VString KeyType.EC]> ∅)) _ _ _)
                   "AAAAAAAAAAAAAAAAAAAAAAAAAAAAAAAAAAAAAAAAAXs" _ _));
      (vm_compute; reflexivity) || discriminate.
  - refine (proj1 (proj1 (Key_infers_curve decodeNothing Elliptic.getPublic
                            {[ "type" := VString KeyType.EC;
                               "privateKey" := VBytes [x01; x02; x03] ]}
                            (<["d" := VString "AQID"]> (<["kty" := VString KeyType.EC]> ∅))
                            _ _ _) "AQID" _ _));
      (vm_compute; reflexivity) || discriminate.
  - refine (proj1 (proj2 (Key_infers_curve decodeNothing Elliptic.getPublic
                            {[ "type" := VString KeyType.EC; "x" := VString "AQID" ]}
                            (<["kty" := VString KeyType.EC]> (<["x" := VString "AQID"]> ∅))
                            _ _ _) _) "AQID" _);
      (vm_compute; reflexivity) || discriminate.
Defined.

(** C5, evaluated on the empty private key.  [PrivateKey] applied to the
    empty byte array builds an EC key whose [d] is present (the empty text,
    read back as a private key of zero bytes) and whose curve is absent.
    Zero is none of the lengths 32, 48 and 66, and [inferCurve] called with
    it on this key throws "Cannot infer named curve from key length"; but
    line 533 tests [that.d] for truthiness, the empty text is falsy, and
    [inferCurve] is not called: the construction does not fail, and the key
    is returned without a curve and without a public point.  A private key
    of one byte does fail, and so does the empty text in [x], because line
    535 tests the decoded [xBits], which is truthy. *)
Theorem empty_private_key_skips_inference
    (DerCodec_decode : ByteArray -> result DerNode)
    (EC_getPublic : string -> ByteArray -> result (N * N)) :
  PrivateKey DerCodec_decode EC_getPublic (VBytes []) ∅
  = ok (<["d" := VString ""]> (<["kty" := VString KeyType.EC]> ∅))
  /\ getProperty DerCodec_decode
       (<["d" := VString ""]> (<["kty" := VString KeyType.EC]> ∅)) "privateKey"
     = ok (VBytes [])
  /\ curveOfLength 0 = None
  /\ inferCurve (<["d" := VString ""]> (<["kty" := VString KeyType.EC]> ∅)) 0
     = throw (KeyError "Cannot infer named curve from key length")
  /\ PrivateKey DerCodec_decode EC_getPublic (VBytes [x01]) ∅
     = throw (KeyError "Cannot infer named curve from key length")
  /\ Key DerCodec_decode EC_getPublic
       {[ "type" := VString KeyType.EC; "x" := VString "" ]}
     = throw (KeyError "Cannot infer named curve from key length").
Proof. conjuncts; vm_compute; reflexivity. Qed.

(** ** Symmetric keys *)

Section Symmetric.
Variable DerCodec_decode : ByteArray -> result DerNode.
Variable EC_getPublic : string -> ByteArray -> result (N * N).

Lemma setProperty_alias (that : Obj) (alias target : string) (value : Value) :
  assoc alias Aliases = Some target ->
  setProperty DerCodec_decode that alias value = ok (<[target := value]> that).
Proof.
  intros H. cbn [assoc Aliases] in H.
  repeat match type of H with
         | context [String.eqb ?name alias] =>
             destruct (String.eqb_spec name alias) as [<-|_];
             [now inversion H|]
         end.
  discriminate H.
Qed.

(** The base fields copied first are those of the record. *)
Lemma forEach_copyBase_lookup (properties : Obj) (names : list string) (that : Obj)
    (key : string) :
  exists that' : Obj,
    forEach (copyBase properties) names that = ok that'
    /\ that' !! key
       = if bool_decide (key ∈ names)
         then (match properties !! key with Some v => Some v | None => that !! key end)
         else that !! key.
Proof.
  revert that. induction names as [|name names IH]; intros that.
  - exists that. split; [reflexivity|].
    now rewrite bool_decide_eq_false_2 by (intros Hin; inversion Hin).
  - cbn [forEach].
    assert (copyBase properties name that
            = ok (match properties !! name with
                  | Some value => <[name := value]> that
                  | None => that
                  end)) as -> by (unfold copyBase; now destruct (properties !! name)).
    run.
    destruct (IH (match properties !! name with
                  | Some value => <[name := value]> that
                  | None => that
                  end)) as (that' & Hrun & Hkey).
    exists that'. split; [exact Hrun|].
    rewrite Hkey. destruct (decide (key = name)) as [->|Hne].
    + rewrite (bool_decide_eq_true_2 (name ∈ name :: names)) by constructor.
      destruct (properties !! name) as [v|]; [|now destruct (bool_decide _)].
      rewrite lookup_insert_eq. now destruct (bool_decide _).
    + assert (bool_decide (key ∈ name :: names) = bool_decide (key ∈ names)) as ->
        by (apply bool_decide_ext; rewrite elem_of_cons; intuition congruence).
      destruct (properties !! name) as [v|]; [|reflexivity].
      now rewrite lookup_insert_ne by congruence.
Qed.

(** A loop over human aliases succeeds and changes nothing but their
    targets. *)
Lemma forEach_alias_frame (properties : Obj) (names : list string) (that : Obj) :
  Forall (fun alias => is_Some (assoc alias Aliases)) names ->
  exists that' : Obj,
    forEach (assign DerCodec_decode properties) names that = ok that'
    /\ forall key : string,
        Forall (fun alias => assoc alias Aliases <> Some key) names ->
        that' !! key = that !! key.
Proof.
  intros Hnames. revert that.
  induction Hnames as [|alias names [target Halias] _ IH]; intros that.
  - exists that. split; [reflexivity|]. reflexivity.
  - cbn [forEach].
    destruct (properties !! alias) as [value|] eqn:Hvalue;
      [destruct (isUndefined value) eqn:Hdefined|].
    + rewrite assign_unset by (unfold unset, getData; now rewrite Hvalue). run. destruct (IH that) as (that' & Hrun & Hframe). exists that'.
      split; [exact Hrun|]. intros key [_ Hkey]%Forall_cons. now apply Hframe.
    + rewrite (assign_set _ _ _ _ value), (setProperty_alias _ _ target) by assumption. run.
      destruct (IH (<[target := value]> that)) as (that' & Hrun & Hframe). exists that'.
      split; [exact Hrun|]. intros key [Hne Hkey]%Forall_cons.
      rewrite Hframe by assumption. apply lookup_insert_ne. congruence.
    + rewrite assign_unset by (unfold unset, getData; now rewrite Hvalue). run.
      destruct (IH that) as (that' & Hrun & Hframe). exists that'.
      split; [exact Hrun|]. intros key [_ Hkey]%Forall_cons. now apply Hframe.
Qed.



End Symmetric.




(** ** The DER helpers *)

Lemma bind_ok_inv {A B} (m : result A) (k : A -> result B) (b : B) :
  (m ≫= k) = ok b -> exists a : A, m = ok a /\ k a = ok b.
Proof. destruct m as [e|a]; [discriminate|]. intros H. now exists a. Qed.

Lemma derContent_Some (node : option DerNode) (derType : DerType) (content : ByteArray) :
  (n ← node; guard (_tag n = derType);; bytes ← _bytes n;
   guard (1 < length bytes)%nat;; Some bytes) = Some content
  <-> exists n : DerNode,
      node = Some n /\ _tag n = derType /\ _bytes n = Some content
      /\ (2 <= length content)%nat.
Proof.
  split.
  - intros H. destruct node as [[tag bytes elements]|]; [|discriminate H].
    cbn [mbind option_bind _tag _bytes] in H.
    case_guard; [|discriminate H]. subst tag.
    destruct bytes as [bytes|]; [|discriminate H]. cbn [mbind option_bind] in H.
    case_guard; [|discriminate H]. injection H as <-.
    eexists. repeat split. lia.
  - intros ([tag bytes elements] & -> & Htag & Hbytes & Hlen).
    cbn [_tag _bytes] in *. subst. cbn [mbind option_bind _tag _bytes].
    repeat case_guard; cbn [mbind option_bind]; first [reflexivity | lia | congruence].
Qed.

(** [checkDerVersion] accepts exactly an integer node whose content is the
    single byte [version]; a missing node, another tag, missing, empty or
    longer content and another number all end in "... key version
    mismatch". *)
Theorem checkDerVersion_accepts (type : string) (node : option DerNode) (version : N) :
  (checkDerVersion type node version = ok tt
   <-> exists (n : DerNode) (b : byte),
       node = Some n /\ _tag n = UnsignedInt /\ _bytes n = Some [b]
       /\ Byte.to_N b = version)
  /\ (checkDerVersion type node version = ok tt
      \/ checkDerVersion type node version
         = throw (KeyError (type +:+ " key version mismatch"))).
Proof.
  unfold checkDerVersion.
  match goal with |- context [decide (?o = _)] => set (derVersion := o) end.
  split; [|destruct (decide (derVersion = Some version)); [now left|now right]].
  assert (derVersion = Some version
          <-> exists (n : DerNode) (b : byte),
              node = Some n /\ _tag n = UnsignedInt /\ _bytes n = Some [b]
              /\ Byte.to_N b = version) as <-.
  { subst derVersion. split.
    - intros H. destruct node as [[tag bytes elements]|]; [|discriminate H].
      cbn [mbind option_bind _tag _bytes] in H.
      case_guard; [|discriminate H]. subst tag.
      destruct bytes as [bytes|]; [|discriminate H]. cbn [mbind option_bind] in H.
      case_guard; [|discriminate H].
      destruct bytes as [|b [|? ?]]; try discriminate.
      injection H as <-. eexists _, b. repeat split.
    - intros ([tag bytes elements] & b & -> & Htag & Hbytes & <-).
      cbn [_tag _bytes] in *. subst. reflexivity. }
  destruct (decide (derVersion = Some version)); [tauto|].
  split; [discriminate|tauto].
Qed.

(** [getDerKey] returns the content of a node of the expected type when it
    is at least two bytes long, and in every other case (no node, another
    type, no content, content of zero or one byte) throws the plain
    [MatterError] "Missing ... key node". *)
Theorem getDerKey_accepts (type : string) (node : option DerNode) (derType : DerType) :
  (forall key : ByteArray,
      getDerKey type node derType = ok key
      <-> exists n : DerNode,
          node = Some n /\ _tag n = derType /\ _bytes n = Some key
          /\ (2 <= length key)%nat)
  /\ ((exists key : ByteArray, getDerKey type node derType = ok key)
      \/ getDerKey type node derType
         = throw (MatterError ("Missing " +:+ type +:+ " key node"))).
Proof.
  unfold getDerKey.
  match goal with |- context [match ?o with Some _ => _ | None => _ end] =>
    set (content := o) end.
  split.
  - intros key. rewrite <- (derContent_Some node derType key). fold content.
    destruct content as [found|]; [|split; discriminate].
    split; [now intros [= ->]|now intros [= ->]].
  - destruct content as [found|]; [left; now exists found|now right].
Qed.

(** [getDerObjectID] returns the content of an object identifier node when
    it is at least two bytes long, and in every other case throws "Missing
    object in ... key". *)
Theorem getDerObjectID_accepts (type : string) (node : option DerNode) :
  (forall oid : ByteArray,
      getDerObjectID type node = ok oid
      <-> exists n : DerNode,
          node = Some n /\ _tag n = ObjectIdentifier /\ _bytes n = Some oid
          /\ (2 <= length oid)%nat)
  /\ ((exists oid : ByteArray, getDerObjectID type node = ok oid)
      \/ getDerObjectID type node
         = throw (KeyError ("Missing object in " +:+ type +:+ " key"))).
Proof.
  unfold getDerObjectID.
  match goal with |- context [match ?o with Some _ => _ | None => _ end] =>
    set (content := o) end.
  split.
  - intros oid. rewrite <- (derContent_Some node ObjectIdentifier oid). fold content.
    destruct content as [found|]; [|split; discriminate].
    split; [now intros [= ->]|now intros [= ->]].
  - destruct content as [found|]; [left; now exists found|now right].
Qed.

(** ** Finishing a key that has a private part *)

Section FinishPrivate.
Variable DerCodec_decode : ByteArray -> result DerNode.
Variable EC_getPublic : string -> ByteArray -> result (N * N).

Lemma supported_curve (curve : string) :
  curve = CurveType.p256 \/ curve = CurveType.p384 \/ curve = CurveType.p521 ->
  truthy (VString curve) = true
  /\ (String.eqb curve CurveType.p256 || String.eqb curve CurveType.p384
      || String.eqb curve CurveType.p521) = true.
Proof. intros [->|[->| ->]]; split; reflexivity. Qed.

Lemma CurveLookup_supported (hex curve : string) :
  CurveLookup !! hex = Some curve ->
  curve = CurveType.p256 \/ curve = CurveType.p384 \/ curve = CurveType.p521.
Proof.
  unfold CurveLookup. intros H.
  apply lookup_insert_Some in H as [[_ <-]|[_ H]]; [now left|].
  apply lookup_insert_Some in H as [[_ <-]|[_ H]]; [now right; left|].
  apply lookup_singleton_Some in H as [_ <-]. now right; right.
Qed.

Lemma curveOfLength_supported (bytes : nat) (curve : string) :
  curveOfLength bytes = Some curve ->
  curve = CurveType.p256 \/ curve = CurveType.p384 \/ curve = CurveType.p521.
Proof.
  unfold curveOfLength.
  destruct (bytes =? 32)%nat; [intros [= <-]; now left|].
  destruct (bytes =? 48)%nat; [intros [= <-]; now right; left|].
  destruct (bytes =? 66)%nat; [intros [= <-]; now right; right|discriminate].
Qed.

(** Lines 508-530 on a key with type EC, a private part and a supported
    curve: the public point is whatever the curve library returns for the
    private bytes, and an exception of the library is the result. *)
Lemma derivePublicFromPrivate_calls (that : Obj) (curve : string) (key : ByteArray) :
  getData that "kty" = VString KeyType.EC ->
  getData that "d" = VString (Base64.encode key true) -> key <> [] ->
  getData that "crv" = VString curve ->
  curve = CurveType.p256 \/ curve = CurveType.p384 \/ curve = CurveType.p521 ->
  derivePublicFromPrivate DerCodec_decode EC_getPublic that
  = (point ← EC_getPublic (presetName curve) key; ok (withPoint that point)).
Proof.
  intros Hkty Hd Hkey Hcrv Hcurve. unfold derivePublicFromPrivate.
  rewrite (getJwk_alias _ "type" "kty"), Hkty by reflexivity.
  rewrite (getJwk_alias _ "private" "d"), Hd by reflexivity.
  rewrite (getJwk_data _ "crv"), Hcrv by reflexivity.
  rewrite truthy_text by (destruct key; [congruence|apply encode_nonempty]).
  change (isString (VString KeyType.EC) KeyType.EC) with true. cbn [negb].
  rewrite (proj2 (supported_curve curve Hcurve)).
  rewrite (getProperty_privateKey _ _ _ Hd), decode_encode. run.
  fold (presetName curve).
  destruct (EC_getPublic (presetName curve) key) as [e|point]; reflexivity.
Qed.

(** Lines 532-542 on a private key whose curve is known. *)
Lemma finish_private (that : Obj) (curve : string) (key : ByteArray) :
  getData that "kty" = VString KeyType.EC ->
  getData that "d" = VString (Base64.encode key true) -> key <> [] ->
  getData that "crv" = VString curve ->
  curve = CurveType.p256 \/ curve = CurveType.p384 \/ curve = CurveType.p521 ->
  truthy (getData that "x") = false ->
  finish DerCodec_decode EC_getPublic that
  = (point ← EC_getPublic (presetName curve) key; ok (withPoint that point)).
Proof.
  intros Hkty Hd Hkey Hcrv Hcurve Hx. unfold finish.
  rewrite (getJwk_alias _ "type" "kty"), Hkty by reflexivity.
  change (isString (VString KeyType.EC) KeyType.EC) with true. cbv iota.
  unfold inferKeyCurve. rewrite (getJwk_data _ "d"), Hd by reflexivity.
  rewrite truthy_text by (destruct key; [congruence|apply encode_nonempty]).
  rewrite (getProperty_privateKey _ _ _ Hd). run. cbn [lengthOf]. run.
  rewrite inferCurve_known
    by (rewrite (getJwk_alias _ "curve" "crv"), Hcrv by reflexivity;
        apply (supported_curve curve Hcurve)).
  run. unfold derivePublic.
  rewrite (getJwk_data _ "d"), (getJwk_data _ "x"), Hd, Hx by reflexivity.
  rewrite truthy_text by (destruct key; [congruence|apply encode_nonempty]).
  cbn [negb orb andb].
  now apply derivePublicFromPrivate_calls.
Qed.

End FinishPrivate.
(** ** The DER importers *)

Ltac skip_names := rewrite forEach_assign_skip by (vm_compute; reflexivity); run.

Section Importers.
Variable DerCodec_decode : ByteArray -> result DerNode.
Variable EC_getPublic : string -> ByteArray -> result (N * N).

(** [algorithmElements?.[i]] is the element [i] of the algorithm node. *)
Lemma algorithm_element (node : option DerNode) (i : nat) :
  (l ← (n ← node; _elements n); l !! i) = element node i.
Proof. now destruct node. Qed.

Lemma getDerKey_length (type : string) (node : option DerNode) (derType : DerType)
    (key : ByteArray) :
  getDerKey type node derType = ok key -> (2 <= length key)%nat.
Proof.
  unfold getDerKey. cbv zeta.
  match goal with |- context [match ?o with Some _ => _ | None => _ end] =>
    destruct o as [found|] eqn:Hcontent end; [|discriminate].
  intros [= <-]. apply derContent_Some in Hcontent as (n & _ & _ & _ & Hlen). exact Hlen.
Qed.

Lemma getDerCurve_supported (type : string) (node : option DerNode) (curve : string) :
  getDerCurve type node = ok curve ->
  curve = CurveType.p256 \/ curve = CurveType.p384 \/ curve = CurveType.p521.
Proof.
  unfold getDerCurve. intros H. apply bind_ok_inv in H as (oid & _ & H).
  destruct (CurveLookup !! toHex oid) as [found|] eqn:Hfound; [|discriminate H].
  injection H as <-. exact (CurveLookup_supported _ _ Hfound).
Qed.

Lemma nonempty_of_length (key : ByteArray) : (2 <= length key)%nat -> key <> [].
Proof. destruct key; [cbn; lia|discriminate]. Qed.

Lemma Key_single_import (name : string) (input : Value) (before after : list string) :
  (Translators DerCodec_decode).*1 = before ++ name :: after ->
  isUndefined input = false ->
  forallb (unset {[ name := input ]}) (JWK_KEYS ++ Aliases.*1 ++ Base64Codecs.*1) = true ->
  forallb (absent {[ name := input ]}) JWK_KEYS = true ->
  forallb (unset {[ name := input ]}) (before ++ after ++ AssertedAliases.*1) = true ->
  Key DerCodec_decode EC_getPublic {[ name := input ]}
  = (that ← setProperty DerCodec_decode ∅ name input;
     finish DerCodec_decode EC_getPublic that).
Proof.
  intros Hnames Hinput Hearly Habsent Hlate.
  rewrite !forallb_app in Hearly, Hlate.
  apply andb_prop in Hearly as [_ [Haliases Hcodecs]%andb_prop].
  apply andb_prop in Hlate as [Hbefore [Hafter Hasserted]%andb_prop].
  unfold Key, install, installOverlays, installAsserted.
  rewrite forEach_copyBase_skip by assumption. run.
  rewrite forEach_assign_skip by assumption. run.
  rewrite forEach_assign_skip by assumption. run.
  rewrite Hnames.
  rewrite (forEach_assign_single _ _ _ _ _ input);
    [|assumption|apply lookup_singleton_eq|assumption|assumption].
  destruct (setProperty DerCodec_decode ∅ name input) as [e|that]; [reflexivity|].
  change (@inr Error Obj that) with (ok that). run.
  rewrite forEach_assign_skip by assumption. run. reflexivity.
Qed.

End Importers.

(** A SEC1 private key whose decoded tree passes the version check, names
    a curve of [CurveLookup] in the first child of element 2 and has its
    private octet string at element 1 is imported as type EC with that
    curve and those private bits, whatever else the tree contains; the
    public point is then computed by the curve library from the private
    bits, and an exception of the library ends the construction.  The
    length of the private key is not compared with the curve. *)
Theorem Key_sec1_import
    (DerCodec_decode : ByteArray -> result DerNode)
    (EC_getPublic : string -> ByteArray -> result (N * N))
    (input : ByteArray) (decoded : DerNode) (key : ByteArray) (curve : string) :
  DerCodec_decode input = ok decoded ->
  checkDerVersion "SEC 1" (element (Some decoded) 0) 1 = ok tt ->
  getDerCurve "SEC 1" (element (element (Some decoded) 2) 0) = ok curve ->
  getDerKey "SEC 1" (element (Some decoded) 1) OctetString = ok key ->
  Key DerCodec_decode EC_getPublic {[ "sec1" := VBytes input ]}
  = (point ← EC_getPublic (presetName curve) key;
     ok (withPoint (privateObj curve key) point)).
Proof.
  intros Hdecode Hversion Hcurve Hkey.
  rewrite (Key_single_import _ _ "sec1" _ [] ["pkcs8"; "spki"; "publicBits"; "keyPairBits"])
    by (vm_compute; reflexivity).
  change (setProperty DerCodec_decode ∅ "sec1" (VBytes input))
    with (sec1_set DerCodec_decode ∅ (VBytes input)).
  unfold sec1_set. rewrite Hdecode. run. rewrite Hversion. run.
  rewrite Hcurve. run. rewrite Hkey. run.
  change (setCodec (importCurve ∅ curve) "privateBits" (VBytes key))
    with (@ok Obj (privateObj curve key)).
  run.
  apply finish_private;
    [reflexivity|reflexivity
    |exact (nonempty_of_length _ (getDerKey_length _ _ _ _ Hkey))
    |reflexivity|exact (getDerCurve_supported _ _ _ Hcurve)|reflexivity].
Qed.

Lemma Key_sec1_import_witness :
  Key (decodeTo (sec1Tree oid_prime256v1 scalar379)) Elliptic.getPublic
    {[ "sec1" := VBytes (der x30 (der x02 [x01] ++ der x04 scalar379
                                    ++ der xa0 (der x06 oid_prime256v1))) ]}
  = (point ← Elliptic.getPublic (presetName CurveType.p256) scalar379;
     ok (withPoint (privateObj CurveType.p256 scalar379) point)).
Proof.
  apply (Key_sec1_import (decodeTo (sec1Tree oid_prime256v1 scalar379)) Elliptic.getPublic
           _ (sec1Tree oid_prime256v1 scalar379) scalar379 CurveType.p256).
  - reflexivity.
  - reflexivity.
  - vm_compute. reflexivity.
  - reflexivity.
Defined.



(** A PKCS #8 private key with the [ecPublicKey] algorithm is imported as
    type EC with the curve its second object identifier names and, as
    private bits, the octet string at element 1 of the tree decoded from
    the content of element 2.  The tag of element 2 and the first element
    of the inner tree (its version) are not looked at.  The public point is
    then computed by the curve library. *)
Theorem Key_pkcs8_import
    (DerCodec_decode : ByteArray -> result DerNode)
    (EC_getPublic : string -> ByteArray -> result (N * N))
    (input : ByteArray) (outer wrapped : DerNode) (algorithm innerBytes : ByteArray)
    (inner : DerNode) (key : ByteArray) (curve : string) :
  DerCodec_decode input = ok outer ->
  checkDerVersion "PKCS #8" (element (Some outer) 0) 0 = ok tt ->
  getDerObjectID "PKCS #8" (element (element (Some outer) 1) 0) = ok algorithm ->
  toHex algorithm = Asn1ObjectID.ecPublicKey ->
  getDerCurve "PKCS #8" (element (element (Some outer) 1) 1) = ok curve ->
  element (Some outer) 2 = Some wrapped -> _bytes wrapped = Some innerBytes ->
  DerCodec_decode innerBytes = ok inner ->
  getDerKey "PKCS #8" (element (Some inner) 1) OctetString = ok key ->
  Key DerCodec_decode EC_getPublic {[ "pkcs8" := VBytes input ]}
  = (point ← EC_getPublic (presetName curve) key;
     ok (withPoint (privateObj curve key) point)).
Proof.
  intros Hdecode Hversion Halgorithm Hec Hcurve Hwrapped Hbytes Hinner Hkey.
  rewrite (Key_single_import _ _ "pkcs8" _ ["sec1"] ["spki"; "publicBits"; "keyPairBits"])
    by (vm_compute; reflexivity).
  change (setProperty DerCodec_decode ∅ "pkcs8" (VBytes input))
    with (pkcs8_set DerCodec_decode ∅ (VBytes input)).
  unfold pkcs8_set. rewrite Hdecode. run. rewrite Hversion. run. cbv zeta.
  rewrite !algorithm_element, Halgorithm. run.
  rewrite Hec. change (String.eqb Asn1ObjectID.ecPublicKey Asn1ObjectID.ecPublicKey) with true.
  cbn [negb]. rewrite Hcurve. run.
  unfold element in Hwrapped. cbn [mbind option_bind] in Hwrapped.
  destruct (_elements outer) as [elements|]; [|discriminate Hwrapped].
  cbn [mbind option_bind] in Hwrapped. rewrite Hwrapped, Hbytes. run.
  rewrite Hinner. run. rewrite Hkey. run.
  change (setCodec (importCurve ∅ curve) "privateBits" (VBytes key))
    with (@ok Obj (privateObj curve key)).
  run.
  apply finish_private;
    [reflexivity|reflexivity
    |exact (nonempty_of_length _ (getDerKey_length _ _ _ _ Hkey))
    |reflexivity|exact (getDerCurve_supported _ _ _ Hcurve)|reflexivity].
Qed.

Lemma Key_pkcs8_import_witness :
  Key (decodeWrapped (pkcs8InnerBytes scalar379)
         (pkcs8Tree oid_ecPublicKey oid_prime256v1 (pkcs8InnerBytes scalar379))
         (pkcs8Inner scalar379))
    Elliptic.getPublic {[ "pkcs8" := VBytes [x30] ]}
  = (point ← Elliptic.getPublic (presetName CurveType.p256) scalar379;
     ok (withPoint (privateObj CurveType.p256 scalar379) point)).
Proof.
  apply (Key_pkcs8_import
           (decodeWrapped (pkcs8InnerBytes scalar379)
              (pkcs8Tree oid_ecPublicKey oid_prime256v1 (pkcs8InnerBytes scalar379))
              (pkcs8Inner scalar379))
           Elliptic.getPublic [x30]
           (pkcs8Tree oid_ecPublicKey oid_prime256v1 (pkcs8InnerBytes scalar379))
           (leaf OctetString (pkcs8InnerBytes scalar379))
           oid_ecPublicKey (pkcs8InnerBytes scalar379) (pkcs8Inner scalar379)
           scalar379 CurveType.p256).
  - reflexivity.
  - reflexivity.
  - reflexivity.
  - vm_compute. reflexivity.
  - vm_compute. reflexivity.
  - reflexivity.
  - reflexivity.
  - vm_compute. reflexivity.
  - reflexivity.
Defined.

(** A SPKI public key with the [ecPublicKey] algorithm is imported as type
    EC with the curve its second object identifier names, and the content
    of its bit string is handed to the raw public point importer: the
    halves of the bytes after the format byte become [x] and [y].  Because
    the curve is set first, the length of the point is not compared with
    it, and the curve library is not called. *)
Theorem Key_spki_import
    (DerCodec_decode : ByteArray -> result DerNode)
    (EC_getPublic : string -> ByteArray -> result (N * N))
    (input : ByteArray) (decoded : DerNode) (algorithm rest : ByteArray) (format : byte)
    (curve : string) :
  DerCodec_decode input = ok decoded ->
  getDerObjectID "SPKI" (element (element (Some decoded) 0) 0) = ok algorithm ->
  toHex algorithm = Asn1ObjectID.ecPublicKey ->
  getDerCurve "SPKI" (element (element (Some decoded) 0) 1) = ok curve ->
  getDerKey "SPKI" (element (Some decoded) 1) BitString = ok (format :: rest) ->
  Nat.even (length rest) = true ->
  Byte.to_N format <> 2%N -> Byte.to_N format <> 3%N -> Byte.to_N format <> 5%N ->
  Key DerCodec_decode EC_getPublic {[ "spki" := VBytes input ]}
  = ok (storePoint (<["crv" := VString curve]> (<["kty" := VString KeyType.EC]> ∅)) rest).
Proof.
  intros Hdecode Halgorithm Hec Hcurve Hkey Heven H2 H3 H5.
  rewrite (Key_single_import _ _ "spki" _ ["sec1"; "pkcs8"] ["publicBits"; "keyPairBits"])
    by (vm_compute; reflexivity).
  change (setProperty DerCodec_decode ∅ "spki" (VBytes input))
    with (spki_set DerCodec_decode ∅ (VBytes input)).
  unfold spki_set. rewrite Hdecode. run. cbv zeta.
  rewrite !algorithm_element, Halgorithm. run.
  rewrite Hec. change (String.eqb Asn1ObjectID.ecPublicKey Asn1ObjectID.ecPublicKey) with true.
  cbn [negb]. rewrite Hcurve. run. rewrite Hkey. run.
  rewrite publicBits_set_odd by assumption.
  apply N.eqb_neq in H2, H3, H5. rewrite H2, H3, H5. cbn [orb].
  pose proof (getDerCurve_supported _ _ _ Hcurve) as Hsupported.
  rewrite inferCurve_known by (now destruct Hsupported as [->|[->| ->]]).
  run.
  change (importCurve ∅ curve)
    with (<["crv" := VString curve]> (<["kty" := VString KeyType.EC]> (∅ : Obj))).
  apply finish_storePoint; [reflexivity|].
  unfold getData. rewrite lookup_insert_eq. now destruct Hsupported as [->|[->| ->]].
Qed.

Lemma Key_spki_import_witness :
  Key (decodeTo (spkiTree oid_ecPublicKey oid_prime256v1 (x04 :: repeat x07 64)))
    Elliptic.getPublic {[ "spki" := VBytes [x30] ]}
  = ok (storePoint (<["crv" := VString CurveType.p256]> (<["kty" := VString KeyType.EC]> ∅))
          (repeat x07 64)).
Proof.
  apply (Key_spki_import
           (decodeTo (spkiTree oid_ecPublicKey oid_prime256v1 (x04 :: repeat x07 64)))
           Elliptic.getPublic [x30]
           (spkiTree oid_ecPublicKey oid_prime256v1 (x04 :: repeat x07 64))
           oid_ecPublicKey (repeat x07 64) x04 CurveType.p256).
  - reflexivity.
  - reflexivity.
  - vm_compute. reflexivity.
  - vm_compute. reflexivity.
  - reflexivity.
  - reflexivity.
  - discriminate.
  - discriminate.
  - discriminate.
Defined.

(** ** Reading back what the importers stored *)

Section ReadBack.
Variable DerCodec_decode : ByteArray -> result DerNode.
Variable EC_getPublic : string -> ByteArray -> result (N * N).

Lemma publicBits_get_xy (that : Obj) (x y : string) :
  that !! "x" = Some (VString x) -> that !! "y" = Some (VString y) ->
  publicBits_get that = ok (VBytes (x04 :: Base64.decode x ++ Base64.decode y)).
Proof.
  intros Hx Hy. unfold publicBits_get.
  rewrite (getCodec_text _ "xBits" "x" x), (getCodec_text _ "yBits" "y" y)
    by (reflexivity || assumption).
  reflexivity.
Qed.

Lemma publicBits_set_inv (that that' : Obj) (input : ByteArray) :
  publicBits_set that (VBytes input) = ok that' ->
  exists (format : byte) (rest : ByteArray) (that'' : Obj),
    input = format :: rest /\ Nat.even (length rest) = true
    /\ inferCurve that (length rest / 2) = ok that''
    /\ that' = storePoint that'' rest.
Proof.
  intros H. destruct (Nat.even (length input)) eqn:Heven.
  - rewrite publicBits_set_even in H by assumption. discriminate H.
  - destruct input as [|format rest]; [discriminate Heven|].
    cbn [length] in Heven. rewrite Nat.even_succ, <- Nat.negb_even in Heven.
    apply negb_false_iff in Heven.
    rewrite publicBits_set_odd in H by assumption.
    destruct (_ || _); [discriminate H|]. destruct (_ =? 5)%N; [discriminate H|].
    destruct (inferCurve that (length rest / 2)) as [e|that''] eqn:Hinfer; [discriminate H|].
    injection H as <-. now exists format, rest, that''.
Qed.

Lemma storePoint_publicBits (that : Obj) (rest : ByteArray) :
  publicBits_get (storePoint that rest) = ok (VBytes (x04 :: rest)).
Proof.
  unfold storePoint. erewrite publicBits_get_xy; [|now lookup_simpl..].
  now rewrite !decode_encode, take_drop.
Qed.

End ReadBack.

(** Whenever the raw public point importer accepts an input, reading
    [publicBits] (or [publicKey]) back gives the same bytes with the format
    byte replaced by 0x04: an uncompressed point round-trips, and a point
    stored under an unchecked format byte comes back as uncompressed. *)
Theorem publicBits_round_trip
    (DerCodec_decode : ByteArray -> result DerNode)
    (that that' : Obj) (input : ByteArray) :
  publicBits_set that (VBytes input) = ok that' ->
  exists (format : byte) (rest : ByteArray),
    input = format :: rest
    /\ publicBits_get that' = ok (VBytes (x04 :: rest))
    /\ getProperty DerCodec_decode that' "publicKey" = ok (VBytes (x04 :: rest)).
Proof.
  intros H. apply publicBits_set_inv in H as (format & rest & that'' & -> & _ & _ & ->).
  exists format, rest. split; [reflexivity|].
  change (getProperty DerCodec_decode ?o "publicKey")
    with (result ← publicBits_get o;
          if isUndefined result
          then throw (KeyError ("Key field " +:+ "publicBits" +:+ " is not defined"))
          else ok result).
  rewrite storePoint_publicBits. split; reflexivity.
Qed.

Lemma publicBits_round_trip_witness :
  exists that' : Obj,
    publicBits_set ∅ (VBytes (x06 :: repeat x07 64)) = ok that'
    /\ publicBits_get that' = ok (VBytes (x04 :: repeat x07 64)).
Proof.
  exists (storePoint (<["crv" := VString CurveType.p256]> ∅) (repeat x07 64)).
  assert (publicBits_set ∅ (VBytes (x06 :: repeat x07 64))
          = ok (storePoint (<["crv" := VString CurveType.p256]> ∅) (repeat x07 64))) as H
      by (vm_compute; reflexivity).
  split; [exact H|].
  destruct (publicBits_round_trip decodeNothing _ _ _ H) as (format & rest & Hinput & Hget & _).
  injection Hinput as _ <-. exact Hget.
Defined.

(** Writing a [BinaryKeyPair] of byte arrays to [keyPairBits] and reading
    it back returns the private key unchanged and the public key with its
    format byte as 0x04, whenever the write is accepted; the private key
    may have any length, the empty one included. *)
Theorem keyPairBits_round_trip (that that' : Obj) (publicKey privateKey : ByteArray) :
  keyPairBits_set that (VKeyPair (VBytes publicKey) (VBytes privateKey)) = ok that' ->
  exists (format : byte) (rest : ByteArray),
    publicKey = format :: rest
    /\ keyPairBits_get that'
       = ok (VKeyPair (VBytes (x04 :: rest)) (VBytes privateKey)).
Proof.
  unfold keyPairBits_set. intros H.
  destruct (publicBits_set that (VBytes publicKey)) as [e|that1] eqn:Hset; [discriminate H|].
  change (@inr Error Obj that1) with (ok that1) in H. rewrite bind_ok_l in H.
  apply publicBits_set_inv in Hset as (format & rest & that'' & -> & _ & _ & ->).
  rewrite (setCodec_bytes _ _ "d") in H by reflexivity. injection H as <-.
  exists format, rest. split; [reflexivity|].
  unfold keyPairBits_get.
  rewrite (publicBits_get_xy _ (Base64.encode (take (length rest / 2) rest) true)
             (Base64.encode (drop (length rest / 2) rest) true))
    by (unfold storePoint; now lookup_simpl).
  rewrite !decode_encode, take_drop. run.
  rewrite (getCodec_text _ "privateBits" "d" (Base64.encode privateKey true))
    by (reflexivity || apply lookup_insert_eq).
  rewrite decode_encode. reflexivity.
Qed.

Lemma keyPairBits_round_trip_witness :
  exists that' : Obj,
    keyPairBits_set ∅ (VKeyPair (VBytes (x04 :: repeat x07 64)) (VBytes (repeat x01 32)))
    = ok that'
    /\ keyPairBits_get that'
       = ok (VKeyPair (VBytes (x04 :: repeat x07 64)) (VBytes (repeat x01 32))).
Proof.
  exists (<["d" := VString (Base64.encode (repeat x01 32) true)]>
            (storePoint (<["crv" := VString CurveType.p256]> ∅) (repeat x07 64))).
  assert (keyPairBits_set ∅ (VKeyPair (VBytes (x04 :: repeat x07 64)) (VBytes (repeat x01 32)))
          = ok (<["d" := VString (Base64.encode (repeat x01 32) true)]>
                  (storePoint (<["crv" := VString CurveType.p256]> ∅) (repeat x07 64)))) as H
      by (vm_compute; reflexivity).
  split; [exact H|].
  destruct (keyPairBits_round_trip _ _ _ _ H) as (format & rest & Hinput & Hget).
  injection Hinput as _ <-. exact Hget.
Defined.

(** ** What the construction steps leave alone *)

Ltac in_list := solve [repeat constructor].

Lemma keeps_refl (fields : list string) (that : Obj) : keeps fields that that.
Proof. now intros key _. Qed.

Lemma keeps_trans (fields : list string) (a b c : Obj) :
  keeps fields a b -> keeps fields b c -> keeps fields a c.
Proof. intros Hab Hbc key Hkey. now rewrite Hbc, Hab. Qed.

Lemma keeps_insert (fields : list string) (that that' : Obj) (key : string) (v : Value) :
  key ∈ fields -> keeps fields that that' -> keeps fields that (<[key := v]> that').
Proof.
  intros Hin Hkeeps name Hname. rewrite lookup_insert_ne by congruence.
  now apply Hkeeps.
Qed.

Ltac keeps_inserts :=
  repeat (apply keeps_insert; [in_list|]); try apply keeps_refl.

Section Frame.
Variable DerCodec_decode : ByteArray -> result DerNode.
Variable EC_getPublic : string -> ByteArray -> result (N * N).

Lemma setCodec_keeps (that that' : Obj) (name : string) (v : Value) :
  name ∈ Base64Codecs.*1 ->
  setCodec that name v = ok that' -> keeps keyMaterial that that'.
Proof.
  intros Hname H.
  cbn in Hname. repeat (apply elem_of_cons in Hname as [->|Hname]);
    [| | |now apply elem_of_nil in Hname];
    destruct v; try discriminate H; injection H as <-; keeps_inserts.
Qed.

Lemma inferCurve_keeps (that that' : Obj) (bytes : nat) :
  inferCurve that bytes = ok that' -> keeps keyMaterial that that'.
Proof.
  unfold inferCurve. destruct (negb _); [|intros [= <-]; apply keeps_refl].
  destruct (bytes =? 66)%nat; [intros [= <-]; keeps_inserts|].
  destruct (bytes =? 48)%nat; [intros [= <-]; keeps_inserts|].
  destruct (bytes =? 32)%nat; [intros [= <-]; keeps_inserts|discriminate].
Qed.

Lemma storePoint_keeps (that that' : Obj) (rest : ByteArray) :
  keeps keyMaterial that that' -> keeps keyMaterial that (storePoint that' rest).
Proof. intros H. unfold storePoint. now repeat (apply keeps_insert; [in_list|]). Qed.

Lemma publicBits_set_keeps (that that' : Obj) (v : Value) :
  publicBits_set that v = ok that' -> keeps keyMaterial that that'.
Proof.
  intros H. destruct v; try discriminate H.
  apply publicBits_set_inv in H as (format & rest & that'' & _ & _ & Hinfer & ->).
  apply storePoint_keeps. now apply inferCurve_keeps in Hinfer.
Qed.

Lemma importCurve_keeps (that : Obj) (curve : string) :
  keeps keyMaterial that (importCurve that curve).
Proof. unfold importCurve. cbn [setJwk assoc Aliases String.eqb Ascii.eqb Bool.eqb andb]. keeps_inserts. Qed.

Lemma sec1_set_keeps (that that' : Obj) (v : Value) :
  sec1_set DerCodec_decode that v = ok that' -> keeps keyMaterial that that'.
Proof.
  intros H. destruct v; try discriminate H. unfold sec1_set in H.
  apply bind_ok_inv in H as (decoded & _ & H).
  apply bind_ok_inv in H as (_ & _ & H).
  apply bind_ok_inv in H as (curve & _ & H).
  apply bind_ok_inv in H as (key & _ & H).
  apply setCodec_keeps in H; [|in_list].
  exact (keeps_trans _ _ _ _ (importCurve_keeps that curve) H).
Qed.

Lemma pkcs8_set_keeps (that that' : Obj) (v : Value) :
  pkcs8_set DerCodec_decode that v = ok that' -> keeps keyMaterial that that'.
Proof.
  intros H. destruct v; try discriminate H. unfold pkcs8_set in H.
  apply bind_ok_inv in H as (outer & _ & H).
  apply bind_ok_inv in H as (_ & _ & H).
  apply bind_ok_inv in H as (algorithm & _ & H).
  destruct (negb _); [discriminate H|].
  apply bind_ok_inv in H as (curve & _ & H).
  apply bind_ok_inv in H as (innerBytes & _ & H).
  destruct innerBytes as [innerBytes|]; [|discriminate H].
  apply bind_ok_inv in H as (inner & _ & H).
  apply bind_ok_inv in H as (key & _ & H).
  apply setCodec_keeps in H; [|in_list].
  exact (keeps_trans _ _ _ _ (importCurve_keeps that curve) H).
Qed.

Lemma spki_set_keeps (that that' : Obj) (v : Value) :
  spki_set DerCodec_decode that v = ok that' -> keeps keyMaterial that that'.
Proof.
  intros H. destruct v; try discriminate H. unfold spki_set in H.
  apply bind_ok_inv in H as (decoded & _ & H).
  apply bind_ok_inv in H as (algorithm & _ & H).
  destruct (negb _); [discriminate H|].
  apply bind_ok_inv in H as (curve & _ & H).
  apply bind_ok_inv in H as (key & _ & H).
  apply publicBits_set_keeps in H.
  exact (keeps_trans _ _ _ _ (importCurve_keeps that curve) H).
Qed.

Lemma keyPairBits_set_keeps (that that' : Obj) (v : Value) :
  keyPairBits_set that v = ok that' -> keeps keyMaterial that that'.
Proof.
  intros H. destruct v; try discriminate H. unfold keyPairBits_set in H.
  apply bind_ok_inv in H as (that1 & Hpublic & H).
  apply publicBits_set_keeps in Hpublic.
  apply setCodec_keeps in H; [|in_list].
  exact (keeps_trans _ _ _ _ Hpublic H).
Qed.

(** Every setter installed after the alias loop writes key material
    only. *)
Lemma setProperty_keeps (that that' : Obj) (name : string) (v : Value) :
  name ∈ materialNames ->
  setProperty DerCodec_decode that name v = ok that' -> keeps keyMaterial that that'.
Proof.
  intros Hname. cbn in Hname.
  repeat (apply elem_of_cons in Hname as [->|Hname]);
    [..|now apply elem_of_nil in Hname]; intros H.
  - apply (setCodec_keeps _ _ "privateBits" v); [in_list|exact H].
  - apply (setCodec_keeps _ _ "xBits" v); [in_list|exact H].
  - apply (setCodec_keeps _ _ "yBits" v); [in_list|exact H].
  - now apply sec1_set_keeps in H.
  - now apply pkcs8_set_keeps in H.
  - now apply spki_set_keeps in H.
  - now apply publicBits_set_keeps in H.
  - now apply keyPairBits_set_keeps in H.
  - now apply publicBits_set_keeps in H.
  - apply (setCodec_keeps _ _ "privateBits" v); [in_list|exact H].
  - now apply keyPairBits_set_keeps in H.
Qed.

Lemma forEach_assign_keeps (properties : Obj) (names : list string) (that that' : Obj) :
  Forall (fun name => name ∈ materialNames) names ->
  forEach (assign DerCodec_decode properties) names that = ok that' ->
  keeps keyMaterial that that'.
Proof.
  intros Hnames. revert that.
  induction Hnames as [|name names Hname _ IH]; intros that.
  - intros [= <-]. apply keeps_refl.
  - rewrite forEach_cons. intros H. apply bind_ok_inv in H as (that1 & Hassign & H).
    apply IH in H. refine (keeps_trans _ _ _ _ _ H).
    unfold assign in Hassign.
    destruct (properties !! name) as [value|]; [|injection Hassign as <-; apply keeps_refl].
    destruct (isUndefined value); [injection Hassign as <-; apply keeps_refl|].
    now apply (setProperty_keeps _ _ name value).
Qed.

Lemma derivePublic_keeps (that that' : Obj) :
  derivePublic DerCodec_decode EC_getPublic that = ok that' -> keeps keyMaterial that that'.
Proof.
  unfold derivePublic, derivePublicFromPrivate.
  destruct (truthy (getJwk that "d") && _); [|intros [= <-]; apply keeps_refl].
  destruct (negb (isString (getJwk that "type") KeyType.EC)); [discriminate|].
  destruct (negb (truthy (getJwk that "private"))); [discriminate|].
  destruct (getJwk that "crv") as [| | name | | | |]; try discriminate.
  destruct (_ || String.eqb name CurveType.p521); [|discriminate].
  intros H. apply bind_ok_inv in H as (privateKey & _ & H).
  destruct privateKey; try discriminate H.
  apply bind_ok_inv in H as (ecKey & _ & H).
  injection H as <-. keeps_inserts.
Qed.

Lemma inferKeyCurve_keeps (that that' : Obj) :
  inferKeyCurve DerCodec_decode that = ok that' -> keeps keyMaterial that that'.
Proof.
  unfold inferKeyCurve. destruct (truthy (getJwk that "d")); intros H.
  - apply bind_ok_inv in H as (privateKey & _ & H).
    apply bind_ok_inv in H as (bytes & _ & H). now apply inferCurve_keeps in H.
  - apply bind_ok_inv in H as (xBits & _ & H).
    destruct (truthy xBits); [|injection H as <-; apply keeps_refl].
    apply bind_ok_inv in H as (xBits' & _ & H).
    apply bind_ok_inv in H as (bytes & _ & H). now apply inferCurve_keeps in H.
Qed.

Lemma finish_keeps (that that' : Obj) :
  finish DerCodec_decode EC_getPublic that = ok that' -> keeps keyMaterial that that'.
Proof.
  unfold finish. destruct (isString _ _); [|intros [= <-]; apply keeps_refl].
  intros H. apply bind_ok_inv in H as (that1 & Hinfer & H).
  apply inferKeyCurve_keeps in Hinfer. apply derivePublic_keeps in H.
  exact (keeps_trans _ _ _ _ Hinfer H).
Qed.

(** The construction in three stages: the copy of the base fields, the
    alias loop, and everything after it, which writes key material only. *)
Lemma Key_stages (properties key : Obj) :
  Key DerCodec_decode EC_getPublic properties = ok key ->
  exists base aliased : Obj,
    forEach (copyBase properties) JWK_KEYS ∅ = ok base
    /\ forEach (assign DerCodec_decode properties) Aliases.*1 base = ok aliased
    /\ keeps keyMaterial aliased key.
Proof.
  unfold Key, install, installOverlays, installAsserted. intros H.
  apply bind_ok_inv in H as (that4 & H & Hfinish).
  apply bind_ok_inv in H as (that3 & H & Hasserted).
  apply bind_ok_inv in H as (base & Hbase & H).
  apply bind_ok_inv in H as (aliased & Haliased & H).
  apply bind_ok_inv in H as (that1 & Hcodecs & Himport).
  exists base, aliased. split; [exact Hbase|]. split; [exact Haliased|].
  apply forEach_assign_keeps in Hcodecs; [|repeat (apply Forall_cons_2; [in_list|]); apply Forall_nil_2].
  apply forEach_assign_keeps in Himport; [|repeat (apply Forall_cons_2; [in_list|]); apply Forall_nil_2].
  apply forEach_assign_keeps in Hasserted; [|repeat (apply Forall_cons_2; [in_list|]); apply Forall_nil_2].
  apply finish_keeps in Hfinish.
  eauto using keeps_trans.
Qed.

End Frame.

(** ** The fields of a constructed key *)

Section Fields.
Variable DerCodec_decode : ByteArray -> result DerNode.
Variable EC_getPublic : string -> ByteArray -> result (N * N).

Lemma alias_loop_frame (properties base aliased : Obj) (key : string) :
  forEach (assign DerCodec_decode properties) Aliases.*1 base = ok aliased ->
  key ∉ Aliases.*2 -> aliased !! key = base !! key.
Proof.
  intros Hrun Hkey.
  destruct (forEach_alias_frame DerCodec_decode properties Aliases.*1 base)
    as (that' & Hrun' & Hframe).
  { repeat (apply Forall_cons_2; [eexists; reflexivity|]). apply Forall_nil_2. }
  rewrite Hrun in Hrun'. injection Hrun' as <-. apply Hframe.
  repeat (apply Forall_cons_2;
          [intros H; vm_compute in H; injection H as <-; apply Hkey; in_list|]).
  apply Forall_nil_2.
Qed.

Lemma base_lookup (properties base : Obj) (key : string) :
  forEach (copyBase properties) JWK_KEYS ∅ = ok base ->
  base !! key = if bool_decide (key ∈ JWK_KEYS) then properties !! key else None.
Proof.
  intros Hrun.
  destruct (forEach_copyBase_lookup EC_getPublic properties JWK_KEYS ∅ key) as (that' & Hrun' & Hkey).
  rewrite Hrun in Hrun'. injection Hrun' as <-. rewrite Hkey, lookup_empty.
  destruct (bool_decide _); [|reflexivity]. now destruct (properties !! key).
Qed.

(** The alias loop leaves the value of a defined alias in its target. *)
Lemma alias_loop_sets (properties base aliased : Obj) (before after : list string)
    (alias target : string) (value : Value) :
  Aliases.*1 = before ++ alias :: after ->
  assoc alias Aliases = Some target ->
  Forall (fun name => is_Some (assoc name Aliases)) (before ++ after) ->
  Forall (fun name => assoc name Aliases <> Some target) after ->
  properties !! alias = Some value -> isUndefined value = false ->
  forEach (assign DerCodec_decode properties) Aliases.*1 base = ok aliased ->
  aliased !! target = Some value.
Proof.
  intros -> Halias [Hbefore Hafter]%Forall_app Hother Hvalue Hdefined Hrun.
  rewrite forEach_app in Hrun. apply bind_ok_inv in Hrun as (that1 & _ & Hrun).
  rewrite forEach_cons in Hrun. apply bind_ok_inv in Hrun as (that2 & Hset & Hrun).
  rewrite (assign_set _ _ _ _ value), (setProperty_alias _ _ _ target) in Hset
    by assumption.
  injection Hset as <-.
  destruct (forEach_alias_frame DerCodec_decode properties after
              (<[target := value]> that1) Hafter) as (that' & Hrun' & Hframe).
  rewrite Hrun in Hrun'. injection Hrun' as <-.
  rewrite Hframe by assumption. apply lookup_insert_eq.
Qed.

Lemma forEach_copyBase_ext (properties1 properties2 : Obj) (names : list string)
    (that : Obj) :
  (forall name : string, name ∈ names -> properties1 !! name = properties2 !! name) ->
  forEach (copyBase properties1) names that = forEach (copyBase properties2) names that.
Proof.
  revert that. induction names as [|name names IH]; intros that Hsame; [reflexivity|].
  rewrite !forEach_cons.
  assert (copyBase properties1 name that = copyBase properties2 name that) as ->
      by (unfold copyBase; now rewrite (Hsame name) by constructor).
  destruct (copyBase properties2 name that) as [e|that']; [reflexivity|].
  change (@inr Error Obj that') with (ok that'). run.
  apply IH. intros. apply Hsame. now constructor.
Qed.

Lemma forEach_assign_ext (properties1 properties2 : Obj) (names : list string)
    (that : Obj) :
  (forall name : string, name ∈ names -> properties1 !! name = properties2 !! name) ->
  forEach (assign DerCodec_decode properties1) names that
  = forEach (assign DerCodec_decode properties2) names that.
Proof.
  revert that. induction names as [|name names IH]; intros that Hsame; [reflexivity|].
  rewrite !forEach_cons.
  assert (assign DerCodec_decode properties1 name that
          = assign DerCodec_decode properties2 name that) as ->
      by (unfold assign; now rewrite (Hsame name) by constructor).
  destruct (assign DerCodec_decode properties2 name that) as [e|that']; [reflexivity|].
  change (@inr Error Obj that') with (ok that'). run.
  apply IH. intros. apply Hsame. now constructor.
Qed.

End Fields.

(** A constructed key holds no data field outside [alg] and the base JWK
    fields of line 15, whatever the partial contains and whatever the
    decoder and the curve library return. *)
Theorem Key_fields
    (DerCodec_decode : ByteArray -> result DerNode)
    (EC_getPublic : string -> ByteArray -> result (N * N))
    (properties key : Obj) (name : string) :
  Key DerCodec_decode EC_getPublic properties = ok key ->
  is_Some (key !! name) -> name ∈ keyFields.
Proof.
  intros HKey Hsome.
  apply Key_stages in HKey as (base & aliased & Hbase & Haliased & Hkeeps).
  destruct (decide (name ∈ keyMaterial)) as [Hmaterial|Hmaterial].
  { unfold keyMaterial in Hmaterial.
    repeat (apply elem_of_cons in Hmaterial as [->|Hmaterial]);
      [..|now apply elem_of_nil in Hmaterial]; vm_compute; in_list. }
  rewrite (Hkeeps name Hmaterial) in Hsome.
  destruct (decide (name ∈ Aliases.*2)) as [Htarget|Htarget].
  { cbn in Htarget.
    repeat (apply elem_of_cons in Htarget as [->|Htarget]);
      [..|now apply elem_of_nil in Htarget]; vm_compute; in_list. }
  rewrite (alias_loop_frame _ _ _ _ _ Haliased Htarget), (base_lookup EC_getPublic _ _ _ Hbase) in Hsome.
  destruct (bool_decide (name ∈ JWK_KEYS)) eqn:Hbasefield.
  - apply bool_decide_eq_true in Hbasefield. unfold keyFields. apply elem_of_cons. now right.
  - now destruct Hsome.
Qed.

Lemma Key_fields_witness :
  Key decodeNothing Elliptic.getPublic
    {[ "type" := VString KeyType.EC; "privateKey" := VBytes scalar379 ]} = ok key379
  /\ is_Some (key379 !! "x") /\ "x" ∈ keyFields.
Proof.
  assert (Key decodeNothing Elliptic.getPublic
            {[ "type" := VString KeyType.EC; "privateKey" := VBytes scalar379 ]}
          = ok key379) as HKey by (vm_compute; reflexivity).
  assert (is_Some (key379 !! "x")) as Hsome by (vm_compute; eexists; reflexivity).
  split; [exact HKey|]. split; [exact Hsome|].
  exact (Key_fields decodeNothing Elliptic.getPublic _ key379 "x" HKey Hsome).
Defined.

(** A base JWK field that no alias targets ([dp], [dq], [e], [k], [n],
    [oth], [p], [q], [qi], [use]) is in the key exactly as the partial has
    it: copied when present, an explicit [undefined] included, and absent
    otherwise.  No later step of the construction writes it. *)
Theorem Key_plain_fields
    (DerCodec_decode : ByteArray -> result DerNode)
    (EC_getPublic : string -> ByteArray -> result (N * N))
    (properties key : Obj) (name : string) :
  Key DerCodec_decode EC_getPublic properties = ok key ->
  name ∈ JWK_KEYS -> name ∉ Aliases.*2 ++ Base64Codecs.*2 ->
  key !! name = properties !! name.
Proof.
  intros HKey Hbasefield Hplain.
  apply Key_stages in HKey as (base & aliased & Hbase & Haliased & Hkeeps).
  apply not_elem_of_app in Hplain as [Htarget Hcodec].
  rewrite Hkeeps.
  - rewrite (alias_loop_frame _ _ _ _ _ Haliased Htarget), (base_lookup EC_getPublic _ _ _ Hbase).
    now rewrite bool_decide_eq_true_2.
  - intros Hmaterial. unfold keyMaterial in Hmaterial.
    repeat (apply elem_of_cons in Hmaterial as [->|Hmaterial]);
      [..|now apply elem_of_nil in Hmaterial];
      first [solve [apply Htarget; cbn; in_list]|solve [apply Hcodec; cbn; in_list]].
Qed.

Lemma Key_plain_fields_witness :
  exists key : Obj,
    Key decodeNothing Elliptic.getPublic
      {[ "type" := VString KeyType.oct; "k" := VString "c2VjcmV0"; "use" := VUndefined ]}
    = ok key
    /\ key !! "k" = Some (VString "c2VjcmV0") /\ key !! "use" = Some VUndefined.
Proof.
  exists (<["kty" := VString KeyType.oct]>
            (<["use" := VUndefined]> (<["k" := VString "c2VjcmV0"]> ∅))).
  assert (Key decodeNothing Elliptic.getPublic
            {[ "type" := VString KeyType.oct; "k" := VString "c2VjcmV0"; "use" := VUndefined ]}
          = ok (<["kty" := VString KeyType.oct]>
                  (<["use" := VUndefined]> (<["k" := VString "c2VjcmV0"]> ∅)))) as HKey
      by (vm_compute; reflexivity).
  split; [exact HKey|]. split.
  - rewrite (Key_plain_fields _ _ _ _ "k" HKey); [reflexivity|in_list|].
    intros H. cbn in H. repeat (apply elem_of_cons in H as [H|H]; [discriminate H|]).
    now apply elem_of_nil in H.
  - rewrite (Key_plain_fields _ _ _ _ "use" HKey); [reflexivity|in_list|].
    intros H. cbn in H. repeat (apply elem_of_cons in H as [H|H]; [discriminate H|]).
    now apply elem_of_nil in H.
Defined.

(** The aliases [algorithm], [operations] and [extractable] take priority
    over the base fields they name: when the partial defines such an alias,
    the key holds its value in [alg], [key_ops] or [ext], whatever the
    partial has under the target's own name. *)
Theorem Key_alias_priority
    (DerCodec_decode : ByteArray -> result DerNode)
    (EC_getPublic : string -> ByteArray -> result (N * N))
    (properties key : Obj) (alias target : string) (value : Value) :
  Key DerCodec_decode EC_getPublic properties = ok key ->
  (alias, target) ∈ Aliases -> target ∉ keyMaterial ->
  properties !! alias = Some value -> isUndefined value = false ->
  key !! target = Some value.
Proof.
  intros HKey Halias Htarget Hvalue Hdefined.
  apply Key_stages in HKey as (base & aliased & Hbase & Haliased & Hkeeps).
  rewrite (Hkeeps target Htarget).
  unfold Aliases in Halias.
  repeat (apply elem_of_cons in Halias as [[= -> ->]|Halias]);
    [..|now apply elem_of_nil in Halias];
    try (exfalso; apply Htarget; in_list).
  - apply (alias_loop_sets DerCodec_decode properties base aliased []
             ["curve"; "type"; "operations"; "private"; "extractable"]
             "algorithm" "alg" value); try assumption; try reflexivity.
    + repeat (apply Forall_cons_2; [eexists; reflexivity|]). apply Forall_nil_2.
    + repeat (apply Forall_cons_2; [discriminate|]). apply Forall_nil_2.
  - apply (alias_loop_sets DerCodec_decode properties base aliased
             ["algorithm"; "curve"; "type"] ["private"; "extractable"]
             "operations" "key_ops" value); try assumption; try reflexivity.
    + repeat (apply Forall_cons_2; [eexists; reflexivity|]). apply Forall_nil_2.
    + repeat (apply Forall_cons_2; [discriminate|]). apply Forall_nil_2.
  - apply (alias_loop_sets DerCodec_decode properties base aliased
             ["algorithm"; "curve"; "type"; "operations"; "private"] []
             "extractable" "ext" value); try assumption; try reflexivity.
    + repeat (apply Forall_cons_2; [eexists; reflexivity|]). apply Forall_nil_2.
    + apply Forall_nil_2.
Qed.

Lemma Key_alias_priority_witness :
  exists key : Obj,
    Key decodeNothing Elliptic.getPublic
      {[ "ext" := VBool true; "extractable" := VBool false ]} = ok key
    /\ key !! "ext" = Some (VBool false).
Proof.
  exists (<["ext" := VBool false]> (<["ext" := VBool true]> ∅)).
  assert (Key decodeNothing Elliptic.getPublic
            {[ "ext" := VBool true; "extractable" := VBool false ]}
          = ok (<["ext" := VBool false]> (<["ext" := VBool true]> ∅))) as HKey
      by (vm_compute; reflexivity).
  split; [exact HKey|].
  apply (Key_alias_priority _ _ _ _ "extractable" "ext" (VBool false) HKey).
  - in_list.
  - intros H. unfold keyMaterial in H.
    repeat (apply elem_of_cons in H as [H|H]; [discriminate H|]).
    now apply elem_of_nil in H.
  - reflexivity.
  - reflexivity.
Defined.

(** Apart from the method [hasOwnProperty] that line 450 calls on it, the
    factory reads the partial under the recognised names only: two
    partials without an own property named [hasOwnProperty] (which would
    shadow that method) that agree on the base JWK fields, the aliases, the
    binary aliases, the importers and the asserted aliases give the same
    key or the same exception.  Any other property has no effect, a
    property called [alg] among them: [alg] is not a base field, so an
    algorithm reaches the key through [algorithm] only. *)
Theorem Key_reads_recognised
    (DerCodec_decode : ByteArray -> result DerNode)
    (EC_getPublic : string -> ByteArray -> result (N * N))
    (properties1 properties2 : Obj) :
  properties1 !! "hasOwnProperty" = None ->
  properties2 !! "hasOwnProperty" = None ->
  (forall name : string,
      name ∈ recognisedNames -> properties1 !! name = properties2 !! name) ->
  Key DerCodec_decode EC_getPublic properties1
  = Key DerCodec_decode EC_getPublic properties2.
Proof.
  intros _ _ Hsame. unfold Key, install, installOverlays, installAsserted.
  assert (forall names : list string,
             (forall name, name ∈ names -> name ∈ recognisedNames) ->
             forall that,
               forEach (assign DerCodec_decode properties1) names that
               = forEach (assign DerCodec_decode properties2) names that) as Hloop.
  { intros names Hnames that. apply forEach_assign_ext. intros name Hname.
    apply Hsame, Hnames, Hname. }
  rewrite (forEach_copyBase_ext properties1 properties2)
    by (intros name Hname; apply Hsame; unfold recognisedNames; rewrite !elem_of_app; tauto).
  destruct (forEach (copyBase properties2) JWK_KEYS ∅) as [e|that]; [reflexivity|].
  change (@inr Error Obj that) with (ok that). run.
  rewrite Hloop by (intros name Hname; unfold recognisedNames; rewrite !elem_of_app; tauto).
  destruct (forEach (assign DerCodec_decode properties2) Aliases.*1 that) as [e|that1];
    [reflexivity|].
  change (@inr Error Obj that1) with (ok that1). run.
  rewrite Hloop by (intros name Hname; unfold recognisedNames; rewrite !elem_of_app; tauto).
  destruct (forEach (assign DerCodec_decode properties2) Base64Codecs.*1 that1) as [e|that2];
    [reflexivity|].
  change (@inr Error Obj that2) with (ok that2). run.
  rewrite Hloop
    by (intros name Hname; change (Translators DerCodec_decode).*1 with TranslatorNames in Hname;
        unfold recognisedNames; rewrite !elem_of_app; tauto).
  destruct (forEach (assign DerCodec_decode properties2) (Translators DerCodec_decode).*1 that2)
    as [e|that3]; [reflexivity|].
  change (@inr Error Obj that3) with (ok that3). run.
  rewrite Hloop by (intros name Hname; unfold recognisedNames; rewrite !elem_of_app; tauto).
  reflexivity.
Qed.

Lemma Key_reads_recognised_witness :
  Key decodeNothing Elliptic.getPublic algOnly = Key decodeNothing Elliptic.getPublic ∅.
Proof.
  apply (Key_reads_recognised decodeNothing Elliptic.getPublic algOnly ∅).
  - reflexivity.
  - reflexivity.
  - intros name Hname. unfold algOnly.
    rewrite lookup_empty. apply lookup_singleton_None.
    intros <-. vm_compute in Hname.
    repeat (apply elem_of_cons in Hname as [Hname|Hname]; [discriminate Hname|]).
    now apply elem_of_nil in Hname.
Defined.

(** ** The private key factory *)

Section Factories.
Variable DerCodec_decode : ByteArray -> result DerNode.
Variable EC_getPublic : string -> ByteArray -> result (N * N).

Lemma curveOfLength_positive (bytes : nat) (curve : string) :
  curveOfLength bytes = Some curve -> (32 <= bytes)%nat.
Proof.
  unfold curveOfLength.
  destruct (Nat.eqb_spec bytes 32); [lia|].
  destruct (Nat.eqb_spec bytes 48); [lia|].
  destruct (Nat.eqb_spec bytes 66); [lia|discriminate].
Qed.

Lemma encode_text (bytes : ByteArray) :
  bytes <> [] -> truthy (VString (Base64.encode bytes true)) = true.
Proof.
  intros H. apply truthy_text. destruct bytes; [congruence|apply encode_nonempty].
Qed.

(** Lines 532-542 on a key that has its curve and both coordinates:
    nothing is inferred and nothing derived. *)
Lemma finish_complete (that : Obj) (d x y : string) :
  getData that "kty" = VString KeyType.EC ->
  truthy (getData that "crv") = true ->
  getData that "d" = VString d ->
  getData that "x" = VString x -> x <> "" ->
  getData that "y" = VString y -> y <> "" ->
  finish DerCodec_decode EC_getPublic that = ok that.
Proof.
  intros Hkty Hcrv Hd Hx Hx' Hy Hy'. unfold finish.
  rewrite (getJwk_alias _ "type" "kty"), Hkty by reflexivity.
  change (isString (VString KeyType.EC) KeyType.EC) with true. cbv iota.
  assert (forall bytes, inferCurve that bytes = ok that) as Hinfer
      by (intros; apply inferCurve_known;
          now rewrite (getJwk_alias _ "curve" "crv") by reflexivity).
  assert (inferKeyCurve DerCodec_decode that = ok that) as ->.
  { unfold inferKeyCurve. rewrite (getJwk_data _ "d") by reflexivity.
    destruct (truthy (getData that "d")).
    - rewrite (getProperty_privateKey _ _ _ Hd). run. cbn [lengthOf]. run. apply Hinfer.
    - rewrite getCodec_xBits, Hx. run. cbn [truthy lengthOf]. run. apply Hinfer. }
  run. unfold derivePublic.
  rewrite (getJwk_data _ "x"), (getJwk_data _ "y"), Hx, Hy by reflexivity.
  rewrite !truthy_text by assumption. cbn [negb orb]. now rewrite andb_false_r.
Qed.

Lemma half_nonempty (rest : ByteArray) (curve : string) :
  curveOfLength (length rest / 2) = Some curve ->
  take (length rest / 2) rest <> [] /\ drop (length rest / 2) rest <> [].
Proof.
  intros Hcurve%curveOfLength_positive.
  pose proof (Nat.Div0.mul_div_le (length rest) 2) as Hhalf.
  split; intros Hnil; apply (f_equal length) in Hnil;
    rewrite ?length_take, ?length_drop in Hnil; cbn [length] in Hnil; lia.
Qed.

End Factories.

(** [PrivateKey] given a [BinaryKeyPair] stores the public point of the
    pair as it is: the curve is the one the point's coordinate length
    names, the curve library is not consulted, so the point is not checked
    against the private key, and the private key may have any length, the
    empty one included.  Reading [keyPair] back gives the pair with 0x04 as
    the format byte. *)
Theorem PrivateKey_pair_unchecked
    (DerCodec_decode : ByteArray -> result DerNode)
    (EC_getPublic : string -> ByteArray -> result (N * N))
    (format : byte) (rest privateKey : ByteArray) (curve : string) :
  Nat.even (length rest) = true ->
  ((Byte.to_N format =? 2) || (Byte.to_N format =? 3) || (Byte.to_N format =? 5))%N = false ->
  curveOfLength (length rest / 2) = Some curve ->
  exists key : Obj,
    PrivateKey DerCodec_decode EC_getPublic
      (VKeyPair (VBytes (format :: rest)) (VBytes privateKey)) ∅ = ok key
    /\ key = <["d" := VString (Base64.encode privateKey true)]>
               (storePoint (<["crv" := VString curve]> (<["kty" := VString KeyType.EC]> ∅))
                  rest)
    /\ getProperty DerCodec_decode key "keyPair"
       = ok (VKeyPair (VBytes (x04 :: rest)) (VBytes privateKey)).
Proof.
  intros Heven Hformat Hcurve. eexists. split; [|split; [reflexivity|]].
  - unfold PrivateKey. rewrite (left_id_L ∅ (∪)).
    unfold Key, install, installOverlays, installAsserted.
    rewrite forEach_copyBase_skip by (vm_compute; reflexivity). run.
    change (Aliases.*1)
      with (["algorithm"; "curve"] ++ "type" :: ["operations"; "private"; "extractable"]).
    rewrite (forEach_assign_single _ _ _ _ _ (VString KeyType.EC)) by (vm_compute; reflexivity).
    change (setProperty DerCodec_decode ∅ "type" (VString KeyType.EC))
      with (@ok Obj (<["kty" := VString KeyType.EC]> ∅)).
    run. do 2 skip_names.
    change (AssertedAliases.*1) with ["publicKey"; "privateKey"; "keyPair"].
    rewrite forEach_cons.
    rewrite (assign_set _ _ "publicKey" _ (VBytes (format :: rest))) by (vm_compute; reflexivity).
    change (setProperty DerCodec_decode ?that "publicKey" ?v) with (publicBits_set that v).
    rewrite publicBits_set_odd by assumption.
    apply orb_false_elim in Hformat as [[-> ->]%orb_false_elim ->]. cbn [orb].
    rewrite inferCurve_unknown by reflexivity. rewrite Hcurve. run.
    rewrite forEach_cons.
    rewrite (assign_set _ _ "privateKey" _ (VBytes privateKey)) by (vm_compute; reflexivity).
    change (setProperty DerCodec_decode ?that "privateKey" ?v)
      with (setCodec that "privateBits" v).
    rewrite (setCodec_bytes _ _ "d") by reflexivity. run.
    rewrite forEach_cons, assign_unset by (vm_compute; reflexivity). run. cbn [forEach].
    destruct (half_nonempty rest curve Hcurve) as [Hx Hy].
    apply (finish_complete _ _ _ (Base64.encode privateKey true)
             (Base64.encode (take (length rest / 2) rest) true)
             (Base64.encode (drop (length rest / 2) rest) true));
      try reflexivity.
    + change (truthy (VString curve) = true).
      apply (supported_curve _ (curveOfLength_supported _ _ Hcurve)).
    + destruct (take _ rest); [congruence|apply encode_nonempty].
    + destruct (drop _ rest); [congruence|apply encode_nonempty].
  - change (getProperty DerCodec_decode ?o "keyPair")
      with (result ← keyPairBits_get o;
            if isUndefined result
            then throw (KeyError ("Key field " +:+ "keyPairBits" +:+ " is not defined"))
            else ok result).
    unfold keyPairBits_get.
    rewrite (publicBits_get_xy _ (Base64.encode (take (length rest / 2) rest) true)
               (Base64.encode (drop (length rest / 2) rest) true))
      by (unfold storePoint; now lookup_simpl).
    rewrite !decode_encode, take_drop. run.
    rewrite (getCodec_text _ "privateBits" "d" (Base64.encode privateKey true))
      by (reflexivity || apply lookup_insert_eq).
    rewrite decode_encode. reflexivity.
Qed.

Lemma PrivateKey_pair_unchecked_witness :
  exists key : Obj,
    PrivateKey decodeNothing Elliptic.getPublic
      (VKeyPair (VBytes (x04 :: repeat x07 64)) (VBytes [x01])) ∅ = ok key
    /\ getProperty decodeNothing key "keyPair"
       = ok (VKeyPair (VBytes (x04 :: repeat x07 64)) (VBytes [x01])).
Proof.
  destruct (PrivateKey_pair_unchecked decodeNothing Elliptic.getPublic x04 (repeat x07 64)
              [x01] CurveType.p256 eq_refl eq_refl eq_refl) as (key & HKey & _ & Hpair).
  exists key. split; assumption.
Defined.

(** [PrivateKey] given 32, 48 or 66 private bytes infers P-256, P-384 or
    P-521 from that length and takes the public point from the curve
    library, called with the curve name in lower case without dashes and
    the private bytes; the coordinates are stored with the length the
    library's numbers have.  An exception of the library ends the
    construction. *)
Theorem PrivateKey_derives_public
    (DerCodec_decode : ByteArray -> result DerNode)
    (EC_getPublic : string -> ByteArray -> result (N * N))
    (privateKey : ByteArray) (curve : string) :
  curveOfLength (length privateKey) = Some curve ->
  PrivateKey DerCodec_decode EC_getPublic (VBytes privateKey) ∅
  = (point ← EC_getPublic (presetName curve) privateKey;
     ok (withPoint (privateObj curve privateKey) point)).
Proof.
  intros Hcurve.
  assert (privateKey <> []) as Hkey
      by (apply curveOfLength_positive in Hcurve; intros ->; cbn in Hcurve; lia).
  unfold PrivateKey. rewrite (left_id_L ∅ (∪)).
  unfold Key, install, installOverlays, installAsserted.
  rewrite forEach_copyBase_skip by (vm_compute; reflexivity). run.
  change (Aliases.*1)
    with (["algorithm"; "curve"] ++ "type" :: ["operations"; "private"; "extractable"]).
  rewrite (forEach_assign_single _ _ _ _ _ (VString KeyType.EC)) by (vm_compute; reflexivity).
  change (setProperty DerCodec_decode ∅ "type" (VString KeyType.EC))
    with (@ok Obj (<["kty" := VString KeyType.EC]> ∅)).
  run. do 2 skip_names.
  change (AssertedAliases.*1) with (["publicKey"] ++ "privateKey" :: ["keyPair"]).
  rewrite (forEach_assign_single _ _ _ _ _ (VBytes privateKey)) by (vm_compute; reflexivity).
  change (setProperty DerCodec_decode ?that "privateKey" ?v)
    with (setCodec that "privateBits" v).
  rewrite (setCodec_bytes _ _ "d") by reflexivity. run.
  unfold finish. change (isString _ KeyType.EC) with true. cbv iota.
  unfold inferKeyCurve.
  change (getJwk ?o "d") with (VString (Base64.encode privateKey true)).
  rewrite (encode_text _ Hkey).
  rewrite (getProperty_privateKey _ _ (Base64.encode privateKey true)) by reflexivity.
  rewrite decode_encode. run. cbn [lengthOf]. run.
  rewrite inferCurve_unknown by reflexivity. rewrite Hcurve. run.
  unfold derivePublic.
  change (getJwk ?o "d") with (VString (Base64.encode privateKey true)).
  change (getJwk ?o "x") with VUndefined.
  rewrite (encode_text _ Hkey). cbn [truthy negb orb andb].
  rewrite (derivePublicFromPrivate_calls _ _ _ curve privateKey);
    [|reflexivity|reflexivity|assumption|reflexivity
     |apply (curveOfLength_supported _ _ Hcurve)].
  unfold privateObj.
  now rewrite (insert_insert_ne (M := gmap string) _ "crv" "d") by discriminate.
Qed.

Lemma PrivateKey_derives_public_witness :
  PrivateKey decodeNothing Elliptic.getPublic (VBytes scalar379) ∅
  = (point ← Elliptic.getPublic (presetName CurveType.p256) scalar379;
     ok (withPoint (privateObj CurveType.p256 scalar379) point)).
Proof.
  apply (PrivateKey_derives_public decodeNothing Elliptic.getPublic scalar379 CurveType.p256).
  reflexivity.
Defined.

(** A curve the caller names is kept: it is not replaced by the curve the
    private key's length would name, and the length is not compared with
    it.  A curve other than P-256, P-384 and P-521 ends the construction of
    a private key with "Unsupported elliptic curve" and the name, because
    its public point cannot be derived. *)
Theorem Key_given_curve
    (DerCodec_decode : ByteArray -> result DerNode)
    (EC_getPublic : string -> ByteArray -> result (N * N))
    (curve : string) (privateKey : ByteArray) :
  curve <> "" -> privateKey <> [] ->
  Key DerCodec_decode EC_getPublic (curveAndPrivate curve privateKey)
  = if supportedCurve curve
    then point ← EC_getPublic (presetName curve) privateKey;
         ok (withPoint (privateObj curve privateKey) point)
    else throw (KeyError ("Unsupported elliptic curve " +:+ curve)).
Proof.
  intros Hcurve Hkey.
  unfold Key, install, installOverlays, installAsserted, curveAndPrivate.
  rewrite forEach_copyBase_skip by (vm_compute; reflexivity). run.
  change (Aliases.*1)
    with ["algorithm"; "curve"; "type"; "operations"; "private"; "extractable"].
  rewrite forEach_cons, assign_unset by (vm_compute; reflexivity). run.
  rewrite forEach_cons.
  rewrite (assign_set _ _ "curve" _ (VString curve)) by (vm_compute; reflexivity).
  rewrite (setProperty_alias _ _ _ "crv") by reflexivity. run.
  rewrite forEach_cons.
  rewrite (assign_set _ _ "type" _ (VString KeyType.EC)) by (vm_compute; reflexivity).
  rewrite (setProperty_alias _ _ _ "kty") by reflexivity. run.
  skip_names. do 2 skip_names.
  change (AssertedAliases.*1) with (["publicKey"] ++ "privateKey" :: ["keyPair"]).
  rewrite (forEach_assign_single _ _ _ _ _ (VBytes privateKey)) by (vm_compute; reflexivity).
  change (setProperty DerCodec_decode ?that "privateKey" ?v)
    with (setCodec that "privateBits" v).
  rewrite (setCodec_bytes _ _ "d") by reflexivity. run.
  rewrite (insert_insert_ne (M := gmap string) _ "kty" "crv") by discriminate.
  fold (privateObj curve privateKey).
  unfold finish. change (isString _ KeyType.EC) with true. cbv iota.
  unfold inferKeyCurve.
  change (getJwk (privateObj curve privateKey) "d")
    with (VString (Base64.encode privateKey true)).
  rewrite (encode_text _ Hkey).
  rewrite (getProperty_privateKey _ _ (Base64.encode privateKey true)) by reflexivity.
  run. cbn [lengthOf]. run.
  rewrite inferCurve_known by (now apply truthy_text).
  run. unfold derivePublic.
  change (getJwk (privateObj curve privateKey) "d")
    with (VString (Base64.encode privateKey true)).
  change (getJwk (privateObj curve privateKey) "x") with VUndefined.
  rewrite (encode_text _ Hkey). cbn [truthy negb orb andb].
  unfold supportedCurve.
  destruct (String.eqb curve CurveType.p256 || String.eqb curve CurveType.p384
            || String.eqb curve CurveType.p521) eqn:Hsupported.
  - apply derivePublicFromPrivate_calls; try reflexivity; [assumption|].
    apply orb_prop in Hsupported as [[H|H]%orb_prop|H];
      apply String.eqb_eq in H; tauto.
  - unfold derivePublicFromPrivate.
    change (isString _ KeyType.EC) with true.
    change (getJwk (privateObj curve privateKey) "private")
      with (VString (Base64.encode privateKey true)).
    rewrite (encode_text _ Hkey). cbn [negb].
    change (getJwk (privateObj curve privateKey) "crv") with (VString curve).
    cbv iota. now rewrite Hsupported.
Qed.

Lemma Key_given_curve_witness :
  Key decodeNothing Elliptic.getPublic (curveAndPrivate "secp256k1" scalar379)
  = throw (KeyError "Unsupported elliptic curve secp256k1").
Proof.
  apply (Key_given_curve decodeNothing Elliptic.getPublic "secp256k1" scalar379);
    discriminate.
Defined.



(** ** SEC1 keys without curve parameters *)

(** The curve parameters of a SEC1 key are required: when the decoded
    sequence has an accepted version but no element at index 2, or an
    element there without a first child, the construction ends with
    "Missing object in SEC 1 key", whatever the private key is. *)
Theorem Key_sec1_requires_curve
    (DerCodec_decode : ByteArray -> result DerNode)
    (EC_getPublic : string -> ByteArray -> result (N * N))
    (input : ByteArray) (decoded : DerNode) :
  DerCodec_decode input = ok decoded ->
  checkDerVersion "SEC 1" (element (Some decoded) 0) 1 = ok tt ->
  element (element (Some decoded) 2) 0 = None ->
  Key DerCodec_decode EC_getPublic {[ "sec1" := VBytes input ]}
  = throw (KeyError "Missing object in SEC 1 key").
Proof.
  intros Hdecode Hversion Hcurve.
  rewrite (Key_single_import _ _ "sec1" _ [] ["pkcs8"; "spki"; "publicBits"; "keyPairBits"])
    by (vm_compute; reflexivity).
  change (setProperty DerCodec_decode ∅ "sec1" (VBytes input))
    with (sec1_set DerCodec_decode ∅ (VBytes input)).
  unfold sec1_set. rewrite Hdecode. run. rewrite Hversion. run.
  rewrite Hcurve. reflexivity.
Qed.

Lemma Key_sec1_requires_curve_witness :
  Key (decodeTo (sec1Bare scalar379)) Elliptic.getPublic {[ "sec1" := VBytes [x30] ]}
  = throw (KeyError "Missing object in SEC 1 key").
Proof.
  apply (Key_sec1_requires_curve (decodeTo (sec1Bare scalar379)) Elliptic.getPublic [x30]
           (sec1Bare scalar379)); reflexivity.
Defined.
